(** * Verification of [scripts/change_architecture.py]

    The script copies a GGUF container while replacing the value stored
    under [general.architecture].  It drives two objects of the [gguf]
    package: a [GGUFReader], whose [fields] (an ordered dictionary) and
    [tensors] (a list) it iterates, and a [GGUFWriter], on which it calls
    [add_key_value], [add_tensor] and the three [write_*_to_file] methods.

    Definitions come first:
    - [Py]: the Python primitives the script relies on (indexing with
      negative indices, strict UTF-8 decoding, exceptions);
    - [Codec]: the value codec of the container format;
    - the reader's data, the writer, the monad the script runs in, and
      [rename_arch] itself (section [RenameArch]);
    - the notions the properties are stated with, and sample containers.

    The facts follow: the codec round trip ([CodecFacts]), the shape of
    every run of the script and what it hands to the writer ([RunFacts]),
    and the runs on the sample containers. *)

From Stdlib Require Import ZArith String Ascii Bool Lia List.
From Stdlib.Strings Require Import Byte.
Import ListNotations.
Local Open Scope Z_scope.

(** ** Python primitives *)

Module Py.

(** A Python [str] is a sequence of Unicode code points. *)
Definition str := list Z.

(** A [str] literal made of ASCII characters. *)
Definition lit (s : string) : str :=
  map (fun a => Z.of_N (N_of_ascii a)) (list_ascii_of_string s).

Definition str_eqb (a b : str) : bool :=
  if list_eq_dec Z.eq_dec a b then true else false.

(** [x in l] for a list of strings. *)
Definition str_in (x : str) (l : list str) : bool := existsb (str_eqb x) l.

(** The exceptions a run of the script can end with.  The first two are
    raised by Python itself, the others by the writer; the last is an
    input/output failure while the writer writes the file. *)
Inductive exn :=
| IndexError
| UnicodeDecodeError
| DuplicateKey
| DuplicateTensorName
| InvalidShape
| ShapeMismatch
| WriterStateError
| IOError.

(** The result of evaluating an expression: a value or an exception. *)
Inductive res (A : Type) :=
| Val (a : A)
| Exc (e : exn).
Arguments Val {A} a.
Arguments Exc {A} e.

(** [l[i]]: indices from [-len(l)] to [len(l) - 1] are valid, negative ones
    count from the end, anything else raises [IndexError]. *)
Definition index {A} (l : list A) (i : Z) : res A :=
  let n := Z.of_nat (length l) in
  let j := if i <? 0 then n + i else i in
  if (0 <=? j) && (j <? n) then
    match nth_error l (Z.to_nat j) with
    | Some x => Val x
    | None => Exc IndexError
    end
  else Exc IndexError.

Definition byte_val (b : byte) : Z := Z.of_N (Byte.to_N b).

(** A continuation byte [10xxxxxx]. *)
Definition is_cont (b : Z) : bool := (0x80 <=? b) && (b <=? 0xBF).

Definition in_range (lo hi b : Z) : bool := (lo <=? b) && (b <=? hi).

Definition opt_cons {A} (x : A) (o : option (list A)) : option (list A) :=
  match o with
  | Some l => Some (x :: l)
  | None => None
  end.

(** Strict UTF-8 decoding of a byte sequence into code points: overlong
    forms, surrogates (U+D800..U+DFFF), code points above U+10FFFF and
    truncated sequences are rejected. *)
Fixpoint utf8_points (bs : list Z) : option (list Z) :=
  match bs with
  | [] => Some []
  | b0 :: r0 =>
    if b0 <? 0x80 then opt_cons b0 (utf8_points r0)
    else if in_range 0xC2 0xDF b0 then
      match r0 with
      | b1 :: r1 =>
        if is_cont b1
        then opt_cons (Z.lor (Z.shiftl (Z.land b0 0x1F) 6) (Z.land b1 0x3F))
                      (utf8_points r1)
        else None
      | _ => None
      end
    else if in_range 0xE0 0xEF b0 then
      match r0 with
      | b1 :: b2 :: r2 =>
        if in_range (if b0 =? 0xE0 then 0xA0 else 0x80)
                    (if b0 =? 0xED then 0x9F else 0xBF) b1 && is_cont b2
        then opt_cons (Z.lor (Z.shiftl (Z.land b0 0x0F) 12)
                         (Z.lor (Z.shiftl (Z.land b1 0x3F) 6) (Z.land b2 0x3F)))
                      (utf8_points r2)
        else None
      | _ => None
      end
    else if in_range 0xF0 0xF4 b0 then
      match r0 with
      | b1 :: b2 :: b3 :: r3 =>
        if in_range (if b0 =? 0xF0 then 0x90 else 0x80)
                    (if b0 =? 0xF4 then 0x8F else 0xBF) b1
           && is_cont b2 && is_cont b3
        then opt_cons (Z.lor (Z.shiftl (Z.land b0 0x07) 18)
                         (Z.lor (Z.shiftl (Z.land b1 0x3F) 12)
                            (Z.lor (Z.shiftl (Z.land b2 0x3F) 6) (Z.land b3 0x3F))))
                      (utf8_points r3)
        else None
      | _ => None
      end
    else None
  end.

(** [str(bs, encoding="utf-8")] for a [bytes] object [bs]. *)
Definition str_utf8 (bs : list byte) : res str :=
  match utf8_points (map byte_val bs) with
  | Some s => Val s
  | None => Exc UnicodeDecodeError
  end.

(** [int(x)] of an integer is that integer. *)
Definition int (x : Z) : Z := x.

End Py.

(** ** Value types *)

(** [GGUFValueType], the enumeration of metadata value types the script
    imports from [gguf]; the constructors are in the order of their codes. *)
Inductive GGUFValueType :=
| UINT8 | INT8 | UINT16 | INT16 | UINT32 | INT32 | FLOAT32 | BOOL
| STRING | ARRAY | UINT64 | INT64 | FLOAT64.

Definition type_code (t : GGUFValueType) : Z :=
  match t with
  | UINT8 => 0 | INT8 => 1 | UINT16 => 2 | INT16 => 3 | UINT32 => 4
  | INT32 => 5 | FLOAT32 => 6 | BOOL => 7 | STRING => 8 | ARRAY => 9
  | UINT64 => 10 | INT64 => 11 | FLOAT64 => 12
  end.

Definition all_types : list GGUFValueType :=
  [UINT8; INT8; UINT16; INT16; UINT32; INT32; FLOAT32; BOOL;
   STRING; ARRAY; UINT64; INT64; FLOAT64].

Definition type_of_code (c : Z) : option GGUFValueType :=
  find (fun t => type_code t =? c) all_types.

(** [a == b] on value types. *)
Definition type_eqb (a b : GGUFValueType) : bool := type_code a =? type_code b.

(** ** The value codec *)

Module Codec.

(** Modelled from the spec: the ValueCodec component (section 4.1), whose
    code is in the [gguf] package and not in this repository.  A value is a
    tag with its contents.  Integers are carried as [Z]; a FLOAT32 or
    FLOAT64 is carried as the bit pattern of its IEEE-754 representation,
    which is what the encoding stores. *)
#[warnings="-register-all"] Inductive Value :=
| VNum (t : GGUFValueType) (n : Z)
| VBool (b : bool)
| VString (utf8 : list byte)
| VArray (elem : GGUFValueType) (items : list Value).

Definition tag (v : Value) : GGUFValueType :=
  match v with
  | VNum t _ => t
  | VBool _ => BOOL
  | VString _ => STRING
  | VArray _ _ => ARRAY
  end.

Inductive error := MalformedValue | UnknownValueType.

(** The declared width, in bytes, of the fixed-width types. *)
Definition width (t : GGUFValueType) : nat :=
  match t with
  | UINT8 | INT8 | BOOL => 1
  | UINT16 | INT16 => 2
  | UINT32 | INT32 | FLOAT32 => 4
  | UINT64 | INT64 | FLOAT64 => 8
  | STRING | ARRAY => 0
  end%nat.

Definition is_signed (t : GGUFValueType) : bool :=
  match t with
  | INT8 | INT16 | INT32 | INT64 => true
  | _ => false
  end.

Definition is_numeric (t : GGUFValueType) : bool :=
  match t with
  | BOOL | STRING | ARRAY => false
  | _ => true
  end.

Definition byte_of_Z (z : Z) : byte :=
  match Byte.of_N (Z.to_N (z mod 256)) with
  | Some b => b
  | None => x00
  end.

(** [w] bytes, least significant first, of [z] modulo [2^(8w)]. *)
Fixpoint le_bytes (w : nat) (z : Z) : list byte :=
  match w with
  | O => []
  | S w' => byte_of_Z z :: le_bytes w' (z / 256)
  end.

(** The unsigned number a little-endian byte sequence stands for. *)
Fixpoint le_value (bs : list byte) : Z :=
  match bs with
  | [] => 0
  | b :: bs' => Py.byte_val b + 256 * le_value bs'
  end.

Definition u64 (z : Z) : list byte := le_bytes 8 z.

(** Read [n] bytes at the cursor, or fail when fewer are left. *)
Definition take (n : nat) (cur : list byte) : error + (list byte * list byte) :=
  if (n <=? List.length cur)%nat then inr (firstn n cur, skipn n cur)
  else inl MalformedValue.

(** Modelled from the spec: [encode] of the ValueCodec (section 4.1).
    Scalars are fixed-width little-endian; a string is its length (u64) and
    bytes; an array is the element type tag (u64), the element count (u64)
    and the element encodings, without their own tags. *)
Fixpoint encode (v : Value) : list byte :=
  match v with
  | VNum t n => le_bytes (width t) n
  | VBool b => [if b then x01 else x00]
  | VString bs => u64 (Z.of_nat (List.length bs)) ++ bs
  | VArray t xs =>
      u64 (type_code t) ++ u64 (Z.of_nat (List.length xs)) ++ flat_map encode xs
  end.

(** Modelled from the spec: [decode] of the ValueCodec (section 4.1) for
    every tag but ARRAY; it fails with MalformedValue when the buffer ends
    before the value does. *)
Definition decode_scalar (t : GGUFValueType) (cur : list byte)
  : error + (Value * list byte) :=
  match t with
  | ARRAY => inl MalformedValue
  | STRING =>
      match take 8 cur with
      | inl e => inl e
      | inr (len, cur1) =>
          match take (Z.to_nat (le_value len)) cur1 with
          | inl e => inl e
          | inr (bs, cur2) => inr (VString bs, cur2)
          end
      end
  | BOOL =>
      match take 1 cur with
      | inl e => inl e
      | inr (bs, cur1) => inr (VBool (negb (le_value bs =? 0)), cur1)
      end
  | _ =>
      match take (width t) cur with
      | inl e => inl e
      | inr (bs, cur1) =>
          let u := le_value bs in
          let half := 2 ^ (8 * Z.of_nat (width t) - 1) in
          inr (VNum t (if is_signed t && (half <=? u) then u - 2 * half else u),
               cur1)
      end
  end.

(** [count] elements of type [t], one after the other. *)
Fixpoint decode_items (count : nat) (t : GGUFValueType) (cur : list byte)
  : error + (list Value * list byte) :=
  match count with
  | O => inr ([], cur)
  | S count' =>
      match decode_scalar t cur with
      | inl e => inl e
      | inr (v, cur1) =>
          match decode_items count' t cur1 with
          | inl e => inl e
          | inr (vs, cur2) => inr (v :: vs, cur2)
          end
      end
  end.

(** Modelled from the spec: [decode(cursor, type_tag)] of the ValueCodec
    (section 4.1): the value and the cursor just past it.  An element type
    may not be ARRAY. *)
Definition decode (t : GGUFValueType) (cur : list byte)
  : error + (Value * list byte) :=
  match t with
  | ARRAY =>
      match take 8 cur with
      | inl e => inl e
      | inr (code, cur1) =>
          match type_of_code (le_value code) with
          | None => inl UnknownValueType
          | Some et =>
              match take 8 cur1 with
              | inl e => inl e
              | inr (cnt, cur2) =>
                  match decode_items (Z.to_nat (le_value cnt)) et cur2 with
                  | inl e => inl e
                  | inr (vs, cur3) => inr (VArray et vs, cur3)
                  end
              end
          end
      end
  | _ => decode_scalar t cur
  end.

(** Modelled from the spec: the values of the data model (section 3).  A
    number fits the width of its type, a length fits 64 bits, and the
    elements of an array are scalars of the declared element type. *)
Definition supported_scalar (v : Value) : bool :=
  match v with
  | VNum t n =>
      is_numeric t &&
      (let half := 2 ^ (8 * Z.of_nat (width t) - 1) in
       if is_signed t then (- half <=? n) && (n <? half)
       else (0 <=? n) && (n <? 2 * half))
  | VBool _ => true
  | VString bs => Z.of_nat (List.length bs) <? 2 ^ 64
  | VArray _ _ => false
  end.

Definition supported (v : Value) : bool :=
  match v with
  | VArray t xs =>
      negb (type_eqb t ARRAY) && (Z.of_nat (List.length xs) <? 2 ^ 64) &&
      forallb (fun x => type_eqb (tag x) t && supported_scalar x) xs
  | _ => supported_scalar v
  end.

End Codec.

(** ** Sequencing of computations that may raise *)

Class Monad (m : Type -> Type) := {
  ret : forall {A}, A -> m A;
  bind : forall {A B}, m A -> (A -> m B) -> m B
}.

Declare Scope monad_scope.
Delimit Scope monad_scope with monad.
Notation "x <- c ;; k" := (bind c (fun x => k))
  (at level 61, c at next level, right associativity) : monad_scope.
Notation "c ;;; k" := (bind c (fun _ => k))
  (at level 61, right associativity) : monad_scope.
Local Open Scope monad_scope.

#[export] Instance res_Monad : Monad Py.res := {
  ret := fun A a => Py.Val a;
  bind := fun A B c k =>
    match c with
    | Py.Val a => k a
    | Py.Exc e => Py.Exc e
    end
}.

(** [[f(x) for x in l]]: the elements are evaluated from left to right and
    the first exception ends the evaluation. *)
Fixpoint mapM {m} `{Monad m} {A B} (f : A -> m B) (l : list A) : m (list B) :=
  match l with
  | [] => ret []
  | x :: xs => y <- f x ;; ys <- mapM f xs ;; ret (y :: ys)
  end.

(** [for x in l: body(x)]. *)
Fixpoint for_each {m} `{Monad m} {A} (l : list A) (body : A -> m unit) : m unit :=
  match l with
  | [] => ret tt
  | x :: xs => body x ;;; for_each xs body
  end.

(** ** The reader's data *)

(** An element of a numpy array.  A float is carried as the bit pattern of
    its stored representation. *)
Inductive scalar :=
| SInt (n : Z)
| SFloat (bits : Z)
| SBool (b : bool).

(** A one-dimensional numpy array, seen through the two operations the
    script applies to it: [bytes(a)] gives its buffer, [a.tolist()] its
    elements ([a[0]] is the first of them). *)
Record ndarray := {
  tobytes : list byte;
  tolist : list scalar
}.

(** [ReaderField]: [parts] are the arrays the field was read as, [data] the
    indices in [parts] of the arrays that hold the value, [types] the value
    type followed, for an array, by the element type. *)
Record ReaderField := {
  field_offset : Z;
  field_name : Py.str;
  parts : list ndarray;
  data : list Z;
  types : list GGUFValueType
}.

(** [ReaderTensor]; [tensor_type] is the dtype tag. *)
Record ReaderTensor := {
  tensor_name : Py.str;
  tensor_type : Z;
  tensor_shape : list Z;
  n_elements : Z;
  n_bytes : Z;
  data_offset : Z;
  tensor_data : ndarray;
  tensor_field : ReaderField
}.

(** [GGUFReader]: [fields] is an ordered dictionary, kept as the list of its
    items in iteration order. *)
Record GGUFReader := {
  fields : list (Py.str * ReaderField);
  tensors : list ReaderTensor
}.

(** ** The writer *)

(** The Python object passed as [val] to [add_key_value]. *)
Inductive PyVal :=
| PyStr (s : Py.str)
| PyScalar (x : scalar)
| PyStrList (l : list Py.str)
| PyList (l : list scalar).

Record GGUFValue := {
  value : PyVal;
  vtype : GGUFValueType;
  sub_type : option GGUFValueType
}.

Record TensorInfo := {
  ti_shape : list Z;
  ti_dtype : Z;
  ti_offset : Z;
  ti_tensor : ndarray
}.

Inductive WriterState := NO_FILE | HEADER | KV_DATA | WEIGHTS.

(** What the writer has put in the output file, phase by phase (the magic
    and version constants of the header are left out). *)
Inductive Chunk :=
| ChHeader (tensor_count kv_count : Z)
| ChMetadata (entries : list (Py.str * GGUFValue))
| ChDescriptors (descs : list (Py.str * (list Z * Z * Z)))
| ChTensorData (blobs : list (Z * list byte)).

Record GGUFWriter := {
  path : Py.str;
  kv_data : list (Py.str * GGUFValue);
  tensor_infos : list (Py.str * TensorInfo);
  state : WriterState;
  fout : list Chunk
}.

(** The calls the script makes on the writer. *)
Inductive Call :=
| CallNew (output_path new_arch : Py.str)
| CallAddKeyValue (key : Py.str) (val : PyVal) (vtype : GGUFValueType)
    (sub_type : option GGUFValueType)
| CallAddTensor (name : Py.str) (tensor : ndarray) (raw_shape : list Z)
    (raw_dtype : Z)
| CallWriteHeader
| CallWriteKV
| CallWriteTensors
| CallClose.

(** The state of a run: the writer and the calls made on it so far, oldest
    first.  The list of calls is not part of the program; it records the
    history the properties below speak of. *)
Record World := {
  writer : GGUFWriter;
  calls : list Call
}.

(** A statement of the script: it ends normally or raises, and in both
    cases leaves a state behind. *)
Definition M (A : Type) : Type := World -> Py.res A * World.

#[export] Instance M_Monad : Monad M := {
  ret := fun A a s => (Py.Val a, s);
  bind := fun A B c k s =>
    match c s with
    | (Py.Val a, s') => k a s'
    | (Py.Exc e, s') => (Py.Exc e, s')
    end
}.

(** An expression that does not touch the writer. *)
Definition eval {A} (r : Py.res A) : M A := fun s => (r, s).

(** A method call on the writer: the call is made, then the method either
    updates the writer or raises and leaves it as it was. *)
Definition invoke (c : Call) (method : GGUFWriter -> Py.res GGUFWriter) : M unit :=
  fun s =>
    match method (writer s) with
    | Py.Val w => (Py.Val tt, {| writer := w; calls := calls s ++ [c] |})
    | Py.Exc e => (Py.Exc e, {| writer := writer s; calls := calls s ++ [c] |})
    end.

Definition KEY_ARCHITECTURE : Py.str := Py.lit "general.architecture".

Definition has_key {V} (k : Py.str) (m : list (Py.str * V)) : bool :=
  existsb (fun kv => Py.str_eqb k (fst kv)) m.

Definition product (shape : list Z) : Z := fold_right Z.mul 1 shape.

Definition ALIGNMENT : Z := 32.

Definition align_up (x : Z) : Z := (x + ALIGNMENT - 1) / ALIGNMENT * ALIGNMENT.

Definition nbytes (a : ndarray) : Z := Z.of_nat (List.length (tobytes a)).

Section RenameArch.

(** The size in bytes of an element of each dtype: a table of the [gguf]
    package. *)
Variable element_size : Z -> Z.

(** The file system: [io_error path file chunks] tells whether appending
    [chunks] to the file at [path], which holds [file], fails.  Closing the
    file is the case of no chunk. *)
Variable io_error : Py.str -> list Chunk -> list Chunk -> bool.

(** Modelled from the spec: the ContainerWriter component (section 4.5) with
    the MetadataStore and the TensorDescriptor Table it owns (sections 4.2
    and 4.3); their code is in the [gguf] package and not in this
    repository.  A new writer holds the architecture label as its first
    metadata entry and no tensor. *)
Definition GGUFWriter_new (output_path arch : Py.str) : GGUFWriter :=
  {| path := output_path;
     kv_data := [(KEY_ARCHITECTURE,
                  {| value := PyStr arch; vtype := STRING; sub_type := None |})];
     tensor_infos := [];
     state := NO_FILE;
     fout := [] |}.

(** Modelled from the spec: [add_key_value] inserts in the MetadataStore,
    which fails with DuplicateKey on a key already present and otherwise
    appends the entry. *)
Definition add_key_value (key : Py.str) (val : PyVal) (vt : GGUFValueType)
    (st : option GGUFValueType) (w : GGUFWriter) : Py.res GGUFWriter :=
  if has_key key (kv_data w) then Py.Exc Py.DuplicateKey
  else Py.Val {| path := path w;
                 kv_data := kv_data w ++
                   [(key, {| value := val; vtype := vt; sub_type := st |})];
                 tensor_infos := tensor_infos w;
                 state := state w;
                 fout := fout w |}.

(** Modelled from the spec: the offset given to the next tensor is the end of
    the previous one rounded up to the alignment. *)
Definition next_offset (ts : list (Py.str * TensorInfo)) : Z :=
  match rev ts with
  | [] => 0
  | (_, ti) :: _ => align_up (ti_offset ti + nbytes (ti_tensor ti))
  end.

(** Modelled from the spec: [add_tensor] fails with ShapeMismatch when the
    byte count does not match the shape; the table then refuses a name
    already present (DuplicateTensorName) and a zero extent (InvalidShape);
    otherwise the tensor gets the next offset and its bytes are kept. *)
Definition add_tensor (name : Py.str) (tensor : ndarray) (raw_shape : list Z)
    (raw_dtype : Z) (w : GGUFWriter) : Py.res GGUFWriter :=
  if negb (product raw_shape * element_size raw_dtype =? nbytes tensor)
  then Py.Exc Py.ShapeMismatch
  else if has_key name (tensor_infos w) then Py.Exc Py.DuplicateTensorName
  else if existsb (Z.eqb 0) raw_shape then Py.Exc Py.InvalidShape
  else Py.Val {| path := path w;
                 kv_data := kv_data w;
                 tensor_infos := tensor_infos w ++
                   [(name, {| ti_shape := raw_shape; ti_dtype := raw_dtype;
                              ti_offset := next_offset (tensor_infos w);
                              ti_tensor := tensor |})];
                 state := state w;
                 fout := fout w |}.

(** Modelled from the spec: a phase of writing runs in its turn only.  It
    appends to the file, or fails with an input/output error that ends the
    writing; what the file holds after a failure is not defined, and the
    writer keeps the record of the phases that were written. *)
Definition emit (expected next : WriterState) (c : list Chunk) (w : GGUFWriter)
  : Py.res GGUFWriter :=
  match state w, expected with
  | NO_FILE, NO_FILE | HEADER, HEADER | KV_DATA, KV_DATA =>
      if io_error (path w) (fout w) c then Py.Exc Py.IOError
      else Py.Val {| path := path w;
                     kv_data := kv_data w;
                     tensor_infos := tensor_infos w;
                     state := next;
                     fout := fout w ++ c |}
  | _, _ => Py.Exc Py.WriterStateError
  end.

(** Modelled from the spec: the phases of writing.  The header carries the
    counts of the tables as they are now; the metadata entries follow in
    insertion order; then the descriptors and the tensor bytes, each at its
    recorded offset. *)
Definition write_header_to_file (w : GGUFWriter) : Py.res GGUFWriter :=
  emit NO_FILE HEADER
    [ChHeader (Z.of_nat (List.length (tensor_infos w)))
              (Z.of_nat (List.length (kv_data w)))] w.

Definition write_kv_data_to_file (w : GGUFWriter) : Py.res GGUFWriter :=
  emit HEADER KV_DATA [ChMetadata (kv_data w)] w.

Definition write_tensors_to_file (w : GGUFWriter) : Py.res GGUFWriter :=
  emit KV_DATA WEIGHTS
    [ChDescriptors
       (map (fun nt => (fst nt, (ti_shape (snd nt), ti_dtype (snd nt),
                                 ti_offset (snd nt)))) (tensor_infos w));
     ChTensorData
       (map (fun nt => (ti_offset (snd nt), tobytes (ti_tensor (snd nt))))
            (tensor_infos w))] w.

(** Modelled from the spec: closing comes after the last phase and writes
    nothing; it too may fail with an input/output error. *)
Definition close (w : GGUFWriter) : Py.res GGUFWriter :=
  if io_error (path w) (fout w) [] then Py.Exc Py.IOError else Py.Val w.

(** ** The script *)

Definition skip_keys : list Py.str :=
  [Py.lit "general.architecture"; Py.lit "GGUF.version";
   Py.lit "GGUF.tensor_count"; Py.lit "GGUF.kv_count"].

(** The value of a STRING field (line 24). *)
Definition string_value (field : ReaderField) : Py.res PyVal :=
  part <- Py.index (parts field) (-1) ;;
  s <- Py.str_utf8 (tobytes part) ;;
  ret (PyStr s).

(** The value of an ARRAY field (lines 29 to 32). *)
Definition array_value (field : ReaderField) (sub : GGUFValueType) : Py.res PyVal :=
  if type_eqb sub STRING then
    l <- mapM (fun idx => part <- Py.index (parts field) idx ;;
                          Py.str_utf8 (tobytes part)) (data field) ;;
    ret (PyStrList l)
  else
    ll <- mapM (fun idx => part <- Py.index (parts field) idx ;;
                           ret (tolist part)) (data field) ;;
    ret (PyList (concat ll)).

(** The value of a scalar field (line 36). *)
Definition scalar_value (field : ReaderField) : Py.res PyVal :=
  part <- Py.index (parts field) (-1) ;;
  x <- Py.index (tolist part) 0 ;;
  ret (PyScalar x).

(** The body of the metadata loop (lines 17 to 37). *)
Definition copy_field (item : Py.str * ReaderField) : M unit :=
  let (key, field) := item in
  if Py.str_in key skip_keys then ret tt
  else
    vt <- eval (Py.index (types field) 0) ;;
    if type_eqb vt STRING then
      val <- eval (string_value field) ;;
      invoke (CallAddKeyValue key val vt None) (add_key_value key val vt None)
    else if type_eqb vt ARRAY then
      sub <- eval (Py.index (types field) 1) ;;
      val <- eval (array_value field sub) ;;
      invoke (CallAddKeyValue key val vt (Some sub))
             (add_key_value key val vt (Some sub))
    else
      val <- eval (scalar_value field) ;;
      invoke (CallAddKeyValue key val vt None) (add_key_value key val vt None).

(** The body of the tensor loop (lines 42 to 47). *)
Definition copy_tensor (tensor : ReaderTensor) : M unit :=
  let raw_shape := map Py.int (tensor_shape tensor) in
  invoke (CallAddTensor (tensor_name tensor) (tensor_data tensor) raw_shape
            (tensor_type tensor))
         (add_tensor (tensor_name tensor) (tensor_data tensor) raw_shape
            (tensor_type tensor)).

Definition copy_metadata (reader : GGUFReader) : M unit :=
  for_each (fields reader) copy_field.

Definition copy_tensors (reader : GGUFReader) : M unit :=
  for_each (tensors reader) copy_tensor.

(** Lines 50 to 53. *)
Definition write_file : M unit :=
  invoke CallWriteHeader write_header_to_file ;;;
  invoke CallWriteKV write_kv_data_to_file ;;;
  invoke CallWriteTensors write_tensors_to_file ;;;
  invoke CallClose close.

(** The state after line 11: a new writer and the call that made it. *)
Definition start (output_path new_arch : Py.str) : World :=
  {| writer := GGUFWriter_new output_path new_arch;
     calls := [CallNew output_path new_arch] |}.

(** [rename_arch], run on the reader that line 8 opens on [input_path]
    (printing is left out).  The result is how the run ended and the state it
    left: the writer and the calls made on it. *)
Definition rename_arch (reader : GGUFReader) (output_path new_arch : Py.str)
  : Py.res unit * World :=
  (copy_metadata reader ;;; copy_tensors reader ;;; write_file)
    (start output_path new_arch).

End RenameArch.

(** ** Notions used in the statements *)

(** [l1] is an initial segment of [l2]. *)
Definition prefix {A} (l1 l2 : list A) : Prop := exists rest, l2 = l1 ++ rest.

(** A field the metadata loop does not skip. *)
Definition kept (item : Py.str * ReaderField) : bool :=
  negb (Py.str_in (fst item) skip_keys).

(** The part of [f] at index [idx] holds the UTF-8 bytes of [s]. *)
Definition holds_text (f : ReaderField) (idx : Z) (s : Py.str) : Prop :=
  exists part, Py.index (parts f) idx = Py.Val part /\
               Py.utf8_points (map Py.byte_val (tobytes part)) = Some s.

(** The part of [f] at index [idx] holds the numbers [xs]. *)
Definition holds_numbers (f : ReaderField) (idx : Z) (xs : list scalar) : Prop :=
  exists part, Py.index (parts f) idx = Py.Val part /\ tolist part = xs.

(** The value a field of the reader stores: a string is the text of the
    last part; an array has its element type as second type and its
    elements in the parts that [data] lists, in that order; a scalar is the
    first element of the last part. *)
Inductive stored (f : ReaderField) : GGUFValue -> Prop :=
| stored_string s rest :
    types f = STRING :: rest ->
    holds_text f (-1) s ->
    stored f {| value := PyStr s; vtype := STRING; sub_type := None |}
| stored_strings l rest :
    types f = ARRAY :: STRING :: rest ->
    Forall2 (holds_text f) (data f) l ->
    stored f {| value := PyStrList l; vtype := ARRAY; sub_type := Some STRING |}
| stored_numbers sub ll rest :
    types f = ARRAY :: sub :: rest ->
    sub <> STRING ->
    Forall2 (holds_numbers f) (data f) ll ->
    stored f {| value := PyList (concat ll); vtype := ARRAY; sub_type := Some sub |}
| stored_scalar t x xs rest :
    types f = t :: rest ->
    t <> STRING -> t <> ARRAY ->
    holds_numbers f (-1) (x :: xs) ->
    stored f {| value := PyScalar x; vtype := t; sub_type := None |}.

Definition text_at (f : ReaderField) (idx : Z) : bool :=
  match Py.index (parts f) idx with
  | Py.Val part =>
      match Py.utf8_points (map Py.byte_val (tobytes part)) with
      | Some _ => true
      | None => false
      end
  | Py.Exc _ => false
  end.

Definition part_at (f : ReaderField) (idx : Z) : bool :=
  match Py.index (parts f) idx with
  | Py.Val _ => true
  | Py.Exc _ => false
  end.

(** A field whose value can be taken: a string is valid UTF-8; an array
    carries its element type, its [data] indices are within [parts], and
    its strings are valid UTF-8; a scalar has an element. *)
Definition well_formed (f : ReaderField) : bool :=
  match types f with
  | [] => false
  | STRING :: _ => text_at f (-1)
  | ARRAY :: [] => false
  | ARRAY :: STRING :: _ => forallb (text_at f) (data f)
  | ARRAY :: _ :: _ => forallb (part_at f) (data f)
  | _ :: _ =>
      match Py.index (parts f) (-1) with
      | Py.Val part => negb (Nat.eqb (List.length (tolist part)) 0)
      | Py.Exc _ => false
      end
  end.

(** The value of a field as the loop body computes it, whatever the type. *)
Definition field_value (field : ReaderField) : Py.res GGUFValue :=
  vt <- Py.index (types field) 0 ;;
  if type_eqb vt STRING then
    val <- string_value field ;;
    ret {| value := val; vtype := vt; sub_type := None |}
  else if type_eqb vt ARRAY then
    sub <- Py.index (types field) 1 ;;
    val <- array_value field sub ;;
    ret {| value := val; vtype := vt; sub_type := Some sub |}
  else
    val <- scalar_value field ;;
    ret {| value := val; vtype := vt; sub_type := None |}.

(** The call that copies a field: the key and the value the field stores. *)
Definition copied (item : Py.str * ReaderField) (c : Call) : Prop :=
  exists v, stored (snd item) v /\
            c = CallAddKeyValue (fst item) (value v) (vtype v) (sub_type v).

(** The exceptions that Python raises while a value is taken from a field;
    the others come from the writer. *)
Definition from_python (e : Py.exn) : bool :=
  match e with
  | Py.IndexError | Py.UnicodeDecodeError => true
  | _ => false
  end.

Definition python_only {A} (r : Py.res A) : Prop :=
  forall e, r = Py.Exc e -> from_python e = true.

(** The keys of the [add_key_value] calls, in call order. *)
Definition added_keys (cs : list Call) : list Py.str :=
  flat_map (fun c => match c with
                     | CallAddKeyValue k _ _ _ => [k]
                     | _ => []
                     end) cs.

(** The [add_key_value] calls, in call order. *)
Definition added_entries (cs : list Call) : list Call :=
  filter (fun c => match c with
                   | CallAddKeyValue _ _ _ _ => true
                   | _ => false
                   end) cs.

(** The [add_tensor] calls, in call order. *)
Definition added_tensors (cs : list Call) : list Call :=
  filter (fun c => match c with
                   | CallAddTensor _ _ _ _ => true
                   | _ => false
                   end) cs.

(** The call that hands a tensor of the reader over unchanged. *)
Definition tensor_call (t : ReaderTensor) : Call :=
  CallAddTensor (tensor_name t) (tensor_data t) (tensor_shape t) (tensor_type t).

Definition is_add (c : Call) : bool :=
  match c with
  | CallAddKeyValue _ _ _ _ | CallAddTensor _ _ _ _ => true
  | _ => false
  end.

Definition write_sequence : list Call :=
  [CallWriteHeader; CallWriteKV; CallWriteTensors; CallClose].

Inductive ChunkKind := KHeader | KMetadata | KDescriptors | KTensorData.

Definition chunk_kind (c : Chunk) : ChunkKind :=
  match c with
  | ChHeader _ _ => KHeader
  | ChMetadata _ => KMetadata
  | ChDescriptors _ => KDescriptors
  | ChTensorData _ => KTensorData
  end.

(** ** Sample containers *)

Module Samples.

(** Element sizes of the dtypes F32 (tag 0) and F16 (tag 1); one byte for any
    other tag. *)
Definition sizes (dtype : Z) : Z :=
  if dtype =? 0 then 4 else if dtype =? 1 then 2 else 1.

(** An array of bytes. *)
Definition u8 (bs : list byte) : ndarray :=
  {| tobytes := bs; tolist := map (fun b => SInt (Py.byte_val b)) bs |}.

(** An array with the single integer [x], stored on [w] bytes. *)
Definition num (w : nat) (x : Z) : ndarray :=
  {| tobytes := Codec.le_bytes w x; tolist := [SInt x] |}.

Definition text (s : string) : ndarray := u8 (list_byte_of_string s).

(** A field as the reader lays it out: the length and bytes of the key and
    the type code come first, then the parts of the value. *)
Definition field_at (offset : Z) (key : string) (ts : list GGUFValueType)
    (value_parts : list ndarray) (idx : list Z) : Py.str * ReaderField :=
  (Py.lit key,
   {| field_offset := offset;
      field_name := Py.lit key;
      parts := num 8 (Z.of_nat (String.length key)) :: text key ::
               num 4 (match ts with t :: _ => type_code t | [] => 0 end) ::
               value_parts;
      data := idx;
      types := ts |}).

Definition tensor_at (offset : Z) (name : string) (dtype : Z) (dims : list Z)
    (bytes : list byte) : ReaderTensor :=
  {| tensor_name := Py.lit name;
     tensor_type := dtype;
     tensor_shape := dims;
     n_elements := product dims;
     n_bytes := Z.of_nat (List.length bytes);
     data_offset := offset;
     tensor_data := {| tobytes := bytes; tolist := [] |};
     tensor_field := snd (field_at offset name [] [] []) |}.

(** The three fields the reader makes of the header. *)
Definition header_fields : list (Py.str * ReaderField) :=
  [(Py.lit "GGUF.version",
    {| field_offset := 4; field_name := Py.lit "GGUF.version";
       parts := [num 4 3]; data := [0]; types := [UINT32] |});
   (Py.lit "GGUF.tensor_count",
    {| field_offset := 8; field_name := Py.lit "GGUF.tensor_count";
       parts := [num 8 1]; data := [0]; types := [UINT64] |});
   (Py.lit "GGUF.kv_count",
    {| field_offset := 16; field_name := Py.lit "GGUF.kv_count";
       parts := [num 8 4]; data := [0]; types := [UINT64] |})].

Definition weights : list byte :=
  flat_map (Codec.le_bytes 4) [1; 2; 3; 4; 5; 6].

(** A container with architecture "alpha", an INT32 entry, an array of two
    strings, an array of two numbers, and a 2 by 3 tensor of 4-byte
    elements. *)
Definition model_at (base : Z) : GGUFReader :=
  {| fields := header_fields ++
       [field_at (base + 24) "general.architecture" [STRING]
          [num 8 5; text "alpha"] [4];
        field_at (base + 61) "answer" [INT32] [num 4 42] [3];
        field_at (base + 83) "tags" [ARRAY; STRING]
          [num 4 8; num 8 2; num 8 1; text "a"; num 8 2; u8 [xc3; xa9]] [6; 8];
        field_at (base + 130) "dims" [ARRAY; UINT32]
          [num 4 4; num 8 2; num 4 7; num 4 9] [5; 6]];
     tensors := [tensor_at (base + 256) "w" 0 [3; 2] weights] |}.

Definition model : GGUFReader := model_at 0.

(** A container whose [note] entry is the single byte 0xFF, which is not
    UTF-8. *)
Definition bad_string : GGUFReader :=
  {| fields := header_fields ++
       [field_at 24 "general.architecture" [STRING] [num 8 5; text "alpha"] [4];
        field_at 61 "note" [STRING] [num 8 1; u8 [xff]] [4]];
     tensors := [tensor_at 96 "w" 0 [3; 2] weights] |}.

(** A container whose [tags] entry is an array of strings with a truncated
    two-byte sequence as second element. *)
Definition bad_element : GGUFReader :=
  {| fields := header_fields ++
       [field_at 24 "general.architecture" [STRING] [num 8 5; text "alpha"] [4];
        field_at 61 "tags" [ARRAY; STRING]
          [num 4 8; num 8 2; num 8 1; text "a"; num 8 1; u8 [xc3]] [6; 8]];
     tensors := [tensor_at 128 "w" 0 [3; 2] weights] |}.

(** A container whose [tags] entry is an array with no element: the reader
    records the element type of an array when it reads the first element,
    so here [types] holds ARRAY alone and [data] is empty. *)
Definition empty_array : GGUFReader :=
  {| fields := header_fields ++
       [field_at 24 "general.architecture" [STRING] [num 8 5; text "alpha"] [4];
        field_at 61 "tags" [ARRAY] [num 4 8; num 8 0] []];
     tensors := [tensor_at 96 "w" 0 [3; 2] weights] |}.

(** A file system on which nothing fails. *)
Definition no_io_error (path : Py.str) (file chunks : list Chunk) : bool := false.

(** A file system on which the first write, to an empty file, fails. *)
Definition disk_full (path : Py.str) (file chunks : list Chunk) : bool :=
  match file, chunks with
  | [], _ :: _ => true
  | _, _ => false
  end.

Definition out : Py.str := Py.lit "out.gguf".
Definition beta : Py.str := Py.lit "beta".

End Samples.

Module MoreSamples.

(** A string entry made of ASCII characters. *)
Definition name_field : Py.str * ReaderField :=
  Samples.field_at 24 "general.name" [STRING]
    [Samples.num 8 4; Samples.text "tiny"] [4].

(** A container with that entry after the header fields and an F16 tensor. *)
Definition named : GGUFReader :=
  {| fields := Samples.header_fields ++ [name_field];
     tensors := [Samples.tensor_at 64 "b" 1 [4] (Codec.le_bytes 8 0)] |}.

(** A string entry whose only byte, 0xFF, is not UTF-8. *)
Definition note_field : Py.str * ReaderField :=
  Samples.field_at 61 "note" [STRING] [Samples.num 8 1; Samples.u8 [xff]] [4].

(** The architecture entry of the sample containers. *)
Definition arch_field : Py.str * ReaderField :=
  Samples.field_at 24 "general.architecture" [STRING]
    [Samples.num 8 5; Samples.text "alpha"] [4].

(** An array entry without elements. *)
Definition empty_tags_field : Py.str * ReaderField :=
  Samples.field_at 61 "tags" [ARRAY] [Samples.num 4 8; Samples.num 8 0] [].

End MoreSamples.

(** ** The value codec: encoding then decoding *)

Module CodecFacts.
Import Codec.

Lemma byte_val_range b : 0 <= Py.byte_val b < 256.
Proof.
  unfold Py.byte_val. pose proof (Byte.to_N_bounded b). lia.
Qed.

Lemma byte_val_of_Z z : Py.byte_val (byte_of_Z z) = z mod 256.
Proof.
  unfold byte_of_Z, Py.byte_val.
  pose proof (Z.mod_pos_bound z 256 ltac:(lia)) as Hm.
  destruct (Byte.of_N (Z.to_N (z mod 256))) as [b|] eqn:E.
  - apply Byte.to_of_N in E. rewrite E. lia.
  - apply Byte.of_N_None_iff in E. lia.
Qed.

Lemma le_bytes_length w z : List.length (le_bytes w z) = w.
Proof.
  revert z. induction w as [|w IH]; intros z; simpl; [reflexivity|].
  now rewrite IH.
Qed.

Lemma le_value_bytes w z : le_value (le_bytes w z) = z mod 256 ^ Z.of_nat w.
Proof.
  revert z. induction w as [|w IH]; intros z.
  - simpl. now rewrite Z.mod_1_r.
  - cbn [le_bytes le_value]. rewrite byte_val_of_Z, IH.
    rewrite Nat2Z.inj_succ, Z.pow_succ_r by lia.
    pose proof (Z.pow_pos_nonneg 256 (Z.of_nat w) ltac:(lia) ltac:(lia)).
    rewrite (Z.rem_mul_r z 256 (256 ^ Z.of_nat w)) by lia.
    reflexivity.
Qed.

Lemma take_app (a b : list byte) : take (List.length a) (a ++ b) = inr (a, b).
Proof.
  unfold take. rewrite length_app.
  destruct (Nat.leb_spec (List.length a) (List.length a + List.length b)); [|lia].
  rewrite firstn_app, Nat.sub_diag, firstn_all. simpl. rewrite app_nil_r.
  rewrite skipn_app, Nat.sub_diag, skipn_all. reflexivity.
Qed.

Lemma take_le_bytes w z rest :
  take w (le_bytes w z ++ rest) = inr (le_bytes w z, rest).
Proof.
  rewrite <- (le_bytes_length w z) at 1. apply take_app.
Qed.

Lemma pow256 w : 256 ^ Z.of_nat w = 2 * 2 ^ (8 * Z.of_nat w - 1) \/ w = O.
Proof.
  destruct w as [|w]; [now right|left].
  replace 256 with (2 ^ 8) by reflexivity.
  rewrite <- Z.pow_mul_r by lia.
  rewrite <- Z.pow_succ_r by lia. f_equal. lia.
Qed.

Lemma type_of_code_code t : type_of_code (type_code t) = Some t.
Proof. destruct t; reflexivity. Qed.

Lemma type_eqb_eq a b : type_eqb a b = true -> a = b.
Proof. destruct a, b; (reflexivity || discriminate). Qed.

Lemma decode_scalar_encode v rest :
  supported_scalar v = true ->
  decode_scalar (tag v) (encode v ++ rest) = inr (v, rest).
Proof.
  destruct v as [t n|b|bs|t xs]; cbn [supported_scalar tag encode]; intros H.
  - apply andb_prop in H. destruct H as [Hn Hr].
    assert (Hdec : decode_scalar t (le_bytes (width t) n ++ rest) =
      let u := le_value (le_bytes (width t) n) in
      let half := 2 ^ (8 * Z.of_nat (width t) - 1) in
      inr (VNum t (if is_signed t && (half <=? u) then u - 2 * half else u), rest)).
    { destruct t; try discriminate Hn; unfold decode_scalar;
        rewrite take_le_bytes; reflexivity. }
    rewrite Hdec. cbv zeta. rewrite le_value_bytes.
    destruct (pow256 (width t)) as [Hp|Hp]; [|destruct t; discriminate].
    rewrite Hp.
    set (half := 2 ^ (8 * Z.of_nat (width t) - 1)) in *.
    assert (0 < half) by (apply Z.pow_pos_nonneg; destruct t; try discriminate Hn; simpl; lia).
    do 3 f_equal.
    destruct (is_signed t); cbn [andb].
    + apply andb_prop in Hr. destruct Hr as [H1 H2].
      apply Z.leb_le in H1. apply Z.ltb_lt in H2.
      destruct (Z.leb_spec half (n mod (2 * half))) as [Hc|Hc].
      * destruct (Z.neg_nonneg_cases n) as [Hneg|Hpos].
        -- rewrite <- (Z.mod_unique_pos n (2 * half) (-1) (n + 2 * half)); lia.
        -- rewrite Z.mod_small in Hc by lia. lia.
      * destruct (Z.neg_nonneg_cases n) as [Hneg|Hpos].
        -- rewrite <- (Z.mod_unique_pos n (2 * half) (-1) (n + 2 * half)) in Hc; lia.
        -- apply Z.mod_small. lia.
    + apply andb_prop in Hr. destruct Hr as [H1 H2].
      apply Z.leb_le in H1. apply Z.ltb_lt in H2.
      apply Z.mod_small. lia.
  - destruct b; reflexivity.
  - apply Z.ltb_lt in H.
    unfold decode_scalar, u64. rewrite <- app_assoc, take_le_bytes.
    rewrite le_value_bytes, Z.mod_small by (change (256 ^ Z.of_nat 8) with (2 ^ 64); lia).
    rewrite Nat2Z.id, take_app. reflexivity.
  - discriminate.
Qed.

Lemma decode_items_encode t xs rest :
  forallb (fun x => type_eqb (tag x) t && supported_scalar x) xs = true ->
  decode_items (List.length xs) t (flat_map encode xs ++ rest) = inr (xs, rest).
Proof.
  induction xs as [|x xs IH]; intros H; [reflexivity|].
  cbn [forallb] in H. apply andb_prop in H. destruct H as [Hx Hxs].
  apply andb_prop in Hx. destruct Hx as [Ht Hs].
  apply type_eqb_eq in Ht. subst t.
  cbn [List.length flat_map decode_items]. rewrite <- app_assoc.
  rewrite (decode_scalar_encode x _ Hs), (IH Hxs). reflexivity.
Qed.

(** C3. Decoding the encoding of a supported value, at the value's tag and
    with anything after it in the buffer, gives back the value itself (same
    tag, same contents) and the cursor just past it.  This covers every
    scalar type, strings (the empty one too) and arrays over every scalar
    element type (the empty one too). *)
Theorem decode_encode v rest :
  supported v = true ->
  decode (tag v) (encode v ++ rest) = inr (v, rest).
Proof.
  destruct v as [t n|b|bs|t xs]; intros H.
  - rewrite <- (decode_scalar_encode (VNum t n) rest H).
    destruct t; try reflexivity. discriminate H.
  - apply (decode_scalar_encode (VBool b) rest H).
  - apply (decode_scalar_encode (VString bs) rest H).
  - cbn [supported] in H. apply andb_prop in H. destruct H as [H Hall].
    apply andb_prop in H. destruct H as [Hna Hlen]. apply Z.ltb_lt in Hlen.
    cbn [tag encode decode]. unfold u64.
    rewrite <- !app_assoc, take_le_bytes, le_value_bytes.
    rewrite Z.mod_small by (destruct t; cbn; lia).
    rewrite type_of_code_code, take_le_bytes, le_value_bytes.
    rewrite Z.mod_small by (change (256 ^ Z.of_nat 8) with (2 ^ 64); lia).
    rewrite Nat2Z.id, (decode_items_encode _ _ _ Hall). reflexivity.
Qed.

Example decode_empty_string rest :
  decode STRING (encode (VString []) ++ rest) = inr (VString [], rest).
Proof. reflexivity. Qed.

Example decode_empty_array rest :
  decode ARRAY (encode (VArray FLOAT64 []) ++ rest) = inr (VArray FLOAT64 [], rest).
Proof. reflexivity. Qed.

Example decode_truncated_string :
  decode STRING (u64 3 ++ [x61; x62]) = inl MalformedValue.
Proof. reflexivity. Qed.

End CodecFacts.

(** ** Running the script *)

Example utf8_two_and_three_and_four_bytes :
  Py.str_utf8 [xc3; xa9; xe2; x82; xac; xf0; x9f; x98; x80]
  = Py.Val [0xE9; 0x20AC; 0x1F600].
Proof. reflexivity. Qed.

Example utf8_rejects_overlong_and_surrogate :
  Py.str_utf8 [xc0; x80] = Py.Exc Py.UnicodeDecodeError /\
  Py.str_utf8 [xed; xa0; x80] = Py.Exc Py.UnicodeDecodeError.
Proof. split; reflexivity. Qed.

Example index_from_the_end :
  Py.index [10; 20; 30] (-1) = Py.Val 30 /\
  Py.index [10; 20; 30] (-4) = Py.Exc Py.IndexError /\
  Py.index [10; 20; 30] 3 = Py.Exc Py.IndexError.
Proof. repeat split; reflexivity. Qed.

Lemma str_eqb_eq a b : Py.str_eqb a b = true <-> a = b.
Proof.
  unfold Py.str_eqb. destruct (list_eq_dec Z.eq_dec a b); split; congruence.
Qed.

Lemma str_in_In x l : Py.str_in x l = true <-> In x l.
Proof.
  unfold Py.str_in. rewrite existsb_exists. split.
  - intros [y [Hy E]]. apply str_eqb_eq in E. now subst.
  - intros H. exists x. split; [assumption|now apply str_eqb_eq].
Qed.

Lemma has_key_In {V} k (m : list (Py.str * V)) :
  has_key k m = true <-> In k (map fst m).
Proof.
  unfold has_key. rewrite existsb_exists, in_map_iff. split.
  - intros [kv [Hin E]]. apply str_eqb_eq in E. exists kv. now split.
  - intros [kv [E Hin]]. exists kv. split; [assumption|now apply str_eqb_eq].
Qed.

Lemma type_eqb_iff a b : type_eqb a b = true <-> a = b.
Proof. destruct a, b; split; (reflexivity || discriminate). Qed.

Lemma type_eqb_neq a b : type_eqb a b = false <-> a <> b.
Proof.
  rewrite <- type_eqb_iff. destruct (type_eqb a b); split; congruence.
Qed.

Lemma map_int l : map Py.int l = l.
Proof. apply map_id. Qed.

Lemma index_first {A} (l : list A) x :
  Py.index l 0 = Py.Val x -> exists rest, l = x :: rest.
Proof.
  destruct l as [|y l]; [discriminate|].
  unfold Py.index. cbn [List.length]. rewrite Nat2Z.inj_succ.
  replace (0 <? 0) with false by reflexivity.
  destruct ((0 <=? 0) && (0 <? Z.succ (Z.of_nat (List.length l)))); [|discriminate].
  simpl. intros E. injection E as ->. now exists l.
Qed.

Lemma index_second {A} (l : list A) x y rest :
  l = x :: rest -> Py.index l 1 = Py.Val y -> exists rest', l = x :: y :: rest'.
Proof.
  intros -> H. destruct rest as [|z rest]; [discriminate|].
  unfold Py.index in H. cbn [List.length] in H. rewrite !Nat2Z.inj_succ in H.
  replace (1 <? 0) with false in H by reflexivity.
  destruct ((0 <=? 1) && (1 <? Z.succ (Z.succ (Z.of_nat (List.length rest)))));
    [|discriminate].
  simpl in H. injection H as ->. now exists rest.
Qed.

Lemma index_is_val_or_IndexError {A} (l : list A) i :
  (exists x, Py.index l i = Py.Val x) \/ Py.index l i = Py.Exc Py.IndexError.
Proof.
  unfold Py.index.
  destruct (_ && _); [|now right].
  destruct (nth_error l _); [left; eauto|now right].
Qed.

(** A list comprehension succeeds exactly when every element does, and its
    results are in the order of the elements. *)
Lemma mapM_res_Val {A B} (f : A -> Py.res B) l ys :
  mapM f l = Py.Val ys <-> Forall2 (fun x y => f x = Py.Val y) l ys.
Proof.
  revert ys. induction l as [|x l IH]; intros ys; cbn [mapM].
  - split.
    + intros E. injection E as <-. constructor.
    + intros H. inversion H. reflexivity.
  - cbn [bind res_Monad ret]. split.
    + destruct (f x) as [y|e] eqn:Ex; [|discriminate].
      destruct (mapM f l) as [ys'|e] eqn:El; [|discriminate].
      intros E. injection E as <-. constructor; [assumption|]. now apply IH.
    + intros H. inversion H as [|x' y l' ys' Hx Hl]; subst.
      rewrite Hx. apply IH in Hl. rewrite Hl. reflexivity.
Qed.

Lemma str_utf8_Val bs s :
  Py.str_utf8 bs = Py.Val s <-> Py.utf8_points (map Py.byte_val bs) = Some s.
Proof.
  unfold Py.str_utf8. destruct (Py.utf8_points _); split; intros H;
    (discriminate H || (injection H as <-; reflexivity)).
Qed.

Lemma text_value f idx s :
  (part <- Py.index (parts f) idx ;; Py.str_utf8 (tobytes part)) = Py.Val s
  <-> holds_text f idx s.
Proof.
  unfold holds_text. cbn [bind res_Monad]. unfold Py.str_utf8. split.
  - destruct (Py.index (parts f) idx) as [part|e]; [|discriminate].
    destruct (Py.utf8_points _) as [s'|] eqn:E; [|discriminate].
    intros H. injection H as <-. eauto.
  - intros [part [-> ->]]. reflexivity.
Qed.

Lemma numbers_value f idx xs :
  (part <- Py.index (parts f) idx ;; ret (tolist part)) = Py.Val xs
  <-> holds_numbers f idx xs.
Proof.
  unfold holds_numbers. cbn [bind res_Monad ret]. split.
  - destruct (Py.index (parts f) idx) as [part|e]; [|discriminate].
    intros H. injection H as <-. eauto.
  - intros [part [-> ->]]. reflexivity.
Qed.

(** What the loop body computes for a field is the value the field stores. *)
Lemma field_value_stored f v : field_value f = Py.Val v -> stored f v.
Proof.
  unfold field_value. cbn [bind res_Monad ret].
  destruct (Py.index (types f) 0) as [vt|e] eqn:E0; [|discriminate].
  destruct (index_first _ _ E0) as [rest Ht].
  destruct (type_eqb vt STRING) eqn:Es.
  - apply type_eqb_iff in Es. subst vt.
    unfold string_value. cbn [bind res_Monad ret].
    destruct (Py.index (parts f) (-1)) as [part|e] eqn:Ep; [|discriminate].
    destruct (Py.str_utf8 (tobytes part)) as [s|e] eqn:Eu; [|discriminate].
    intros H. injection H as <-.
    eapply stored_string; [eassumption|].
    exists part. split; [assumption|now apply str_utf8_Val].
  - apply type_eqb_neq in Es.
    destruct (type_eqb vt ARRAY) eqn:Ea.
    + apply type_eqb_iff in Ea. subst vt.
      destruct (Py.index (types f) 1) as [sub|e] eqn:E1; [|discriminate].
      destruct (index_second _ _ _ _ Ht E1) as [rest' Ht'].
      unfold array_value. destruct (type_eqb sub STRING) eqn:Ess.
      * apply type_eqb_iff in Ess. subst sub. cbn [bind res_Monad ret].
        destruct (mapM _ (data f)) as [l|e] eqn:Em; [|discriminate].
        intros H. injection H as <-.
        eapply stored_strings; [eassumption|].
        apply mapM_res_Val in Em.
        eapply Forall2_impl; [|exact Em]. intros idx s Hs. now apply text_value.
      * apply type_eqb_neq in Ess. cbn [bind res_Monad ret].
        destruct (mapM _ (data f)) as [ll|e] eqn:Em; [|discriminate].
        intros H. injection H as <-.
        eapply stored_numbers; [eassumption|assumption|].
        apply mapM_res_Val in Em.
        eapply Forall2_impl; [|exact Em]. intros idx xs Hs. now apply numbers_value.
    + apply type_eqb_neq in Ea. unfold scalar_value. cbn [bind res_Monad ret].
      destruct (Py.index (parts f) (-1)) as [part|e] eqn:Ep; [|discriminate].
      destruct (Py.index (tolist part) 0) as [x|e] eqn:Ex; [|discriminate].
      intros H. injection H as <-.
      destruct (index_first _ _ Ex) as [xs Hxs].
      apply stored_scalar with (xs := xs) (rest := rest); try assumption.
      exists part. split; assumption.
Qed.

Lemma index_0_cons {A} (x : A) l : Py.index (x :: l) 0 = Py.Val x.
Proof.
  unfold Py.index. cbn [List.length].
  replace (0 <? 0) with false by reflexivity.
  destruct (Z.ltb_spec 0 (Z.of_nat (S (List.length l)))); [reflexivity|lia].
Qed.

Lemma index_1_cons {A} (x y : A) l : Py.index (x :: y :: l) 1 = Py.Val y.
Proof.
  unfold Py.index. cbn [List.length].
  replace (1 <? 0) with false by reflexivity.
  destruct (Z.ltb_spec 1 (Z.of_nat (S (S (List.length l))))); [reflexivity|lia].
Qed.

Lemma mapM_res_total {A B} (f : A -> Py.res B) (ok : A -> bool) l :
  (forall x, ok x = true -> exists y, f x = Py.Val y) ->
  forallb ok l = true -> exists ys, mapM f l = Py.Val ys.
Proof.
  intros Hok. induction l as [|x l IH]; intros H.
  - now exists [].
  - cbn [forallb] in H. apply andb_prop in H. destruct H as [Hx Hl].
    destruct (Hok x Hx) as [y Hy]. destruct (IH Hl) as [ys Hys].
    exists (y :: ys). cbn [mapM bind res_Monad ret]. now rewrite Hy, Hys.
Qed.

Lemma text_at_value f idx :
  text_at f idx = true ->
  exists s, (part <- Py.index (parts f) idx ;; Py.str_utf8 (tobytes part)) = Py.Val s.
Proof.
  unfold text_at, Py.str_utf8. cbn [bind res_Monad].
  destruct (Py.index (parts f) idx) as [part|e]; [|discriminate].
  destruct (Py.utf8_points _) as [s|]; [|discriminate]. eauto.
Qed.

Lemma part_at_value f idx :
  part_at f idx = true ->
  exists xs, (part <- Py.index (parts f) idx ;; ret (tolist part)) = Py.Val xs.
Proof.
  unfold part_at. cbn [bind res_Monad ret].
  destruct (Py.index (parts f) idx) as [part|e]; [|discriminate]. eauto.
Qed.

(** The value of a well-formed field can be taken. *)
Lemma well_formed_value f :
  well_formed f = true -> exists v, field_value f = Py.Val v.
Proof.
  unfold well_formed, field_value.
  destruct (types f) as [|t rest] eqn:Et; [discriminate|].
  rewrite index_0_cons. cbn [bind res_Monad ret].
  destruct (type_eqb t STRING) eqn:Es.
  - apply type_eqb_iff in Es. subst t. intros H.
    destruct (text_at_value _ _ H) as [s Hs]. cbn [bind res_Monad] in Hs.
    unfold string_value. cbn [bind res_Monad ret].
    destruct (Py.index (parts f) (-1)) as [part|e]; [|discriminate].
    rewrite Hs. eauto.
  - destruct (type_eqb t ARRAY) eqn:Ea.
    + apply type_eqb_iff in Ea. subst t.
      destruct rest as [|sub rest]; [discriminate|].
      rewrite index_1_cons. unfold array_value.
      destruct (type_eqb sub STRING) eqn:Ess; intros H.
      * apply type_eqb_iff in Ess. subst sub.
        destruct (mapM_res_total _ _ _ (text_at_value f) H) as [l Hl].
        cbn [bind res_Monad ret] in *. rewrite Hl. eauto.
      * assert (Hp : forallb (part_at f) (data f) = true)
          by (destruct sub; (assumption || discriminate)).
        destruct (mapM_res_total _ _ _ (part_at_value f) Hp) as [ll Hl].
        cbn [bind res_Monad ret] in *. rewrite Hl. eauto.
    + intros H. unfold scalar_value. cbn [bind res_Monad ret].
      assert (Hp : match Py.index (parts f) (-1) with
                   | Py.Val part => negb (Nat.eqb (List.length (tolist part)) 0)
                   | Py.Exc _ => false
                   end = true)
        by (destruct t; (assumption || discriminate)).
      destruct (Py.index (parts f) (-1)) as [part|e]; [|discriminate].
      destruct (tolist part) as [|x xs]; [discriminate|].
      rewrite index_0_cons. eauto.
Qed.

(** The loop body: a skipped key does nothing; otherwise the value is taken
    and, if that did not raise, handed to [add_key_value]. *)
Lemma copy_field_run key f s :
  copy_field (key, f) s =
  if Py.str_in key skip_keys then (Py.Val tt, s)
  else match field_value f with
       | Py.Exc e => (Py.Exc e, s)
       | Py.Val v =>
           invoke (CallAddKeyValue key (value v) (vtype v) (sub_type v))
                  (add_key_value key (value v) (vtype v) (sub_type v)) s
       end.
Proof.
  unfold copy_field, field_value.
  destruct (Py.str_in key skip_keys); [reflexivity|].
  cbn [bind M_Monad res_Monad ret]. unfold eval.
  destruct (Py.index (types f) 0) as [vt|e]; [|reflexivity].
  destruct (type_eqb vt STRING).
  - cbn [bind M_Monad res_Monad ret]. destruct (string_value f); reflexivity.
  - destruct (type_eqb vt ARRAY).
    + cbn [bind M_Monad res_Monad ret].
      destruct (Py.index (types f) 1) as [sub|e]; [|reflexivity].
      destruct (array_value f sub); reflexivity.
    + cbn [bind M_Monad res_Monad ret]. destruct (scalar_value f); reflexivity.
Qed.

Lemma for_each_cons {A} (body : A -> M unit) x xs s :
  for_each (x :: xs) body s =
  match body x s with
  | (Py.Val _, s1) => for_each xs body s1
  | (Py.Exc e, s1) => (Py.Exc e, s1)
  end.
Proof. reflexivity. Qed.

Lemma added_keys_app a b : added_keys (a ++ b) = added_keys a ++ added_keys b.
Proof. apply flat_map_app. Qed.

Lemma added_tensors_app a b :
  added_tensors (a ++ b) = added_tensors a ++ added_tensors b.
Proof. apply filter_app. Qed.

(** The metadata loop, seen from the calls: the loop goes through an initial
    segment [done] of the fields, all of them when it ends normally; it makes
    one call for each field of [done] that is not skipped, in order; and it
    changes nothing of the writer but the metadata. *)
Lemma copy_metadata_trace items : forall s r s',
  for_each items copy_field s = (r, s') ->
  exists done todo kvcalls,
    items = done ++ todo /\
    calls s' = calls s ++ kvcalls /\
    Forall2 copied (filter kept done) kvcalls /\
    (r = Py.Val tt ->
     todo = [] /\
     map fst (kv_data (writer s')) = map fst (kv_data (writer s)) ++ added_keys kvcalls) /\
    tensor_infos (writer s') = tensor_infos (writer s) /\
    state (writer s') = state (writer s) /\
    fout (writer s') = fout (writer s).
Proof.
  induction items as [|[key f] items IH]; intros s r s' Hrun.
  - injection Hrun as <- <-. exists [], [], [].
    split; [reflexivity|]. split; [now rewrite app_nil_r|].
    split; [constructor|]. split; [|repeat split].
    intros _. split; [reflexivity|now rewrite app_nil_r].
  - rewrite for_each_cons, copy_field_run in Hrun.
    destruct (Py.str_in key skip_keys) eqn:Hskip.
    + destruct (IH _ _ _ Hrun) as (done & todo & kvcalls & -> & Hc & Hf & Hrest).
      exists ((key, f) :: done), todo, kvcalls.
      cbn [filter]. unfold kept at 1. cbn [fst]. rewrite Hskip. cbn [negb].
      split; [reflexivity|]. split; [assumption|]. split; assumption.
    + destruct (field_value f) as [v|e] eqn:Hv.
      * unfold invoke, add_key_value in Hrun.
        destruct (has_key key (kv_data (writer s))).
        -- injection Hrun as <- <-.
           exists [(key, f)], items, [CallAddKeyValue key (value v) (vtype v) (sub_type v)].
           cbn [filter]. unfold kept. cbn [fst]. rewrite Hskip. cbn [negb].
           split; [reflexivity|]. split; [reflexivity|].
           split; [|split; [discriminate|repeat split]].
           constructor; [|constructor].
           exists v. split; [now apply field_value_stored|reflexivity].
        -- destruct (IH _ _ _ Hrun)
             as (done & todo & kvcalls & -> & Hc & Hf & Hr & Hrest).
           exists ((key, f) :: done), todo,
             (CallAddKeyValue key (value v) (vtype v) (sub_type v) :: kvcalls).
           cbn [filter]. unfold kept at 1. cbn [fst]. rewrite Hskip. cbn [negb].
           cbn [calls writer tensor_infos state fout kv_data] in *.
           split; [reflexivity|]. split; [now rewrite Hc, <- app_assoc|].
           split; [|split; [|exact Hrest]].
           ++ constructor; [|assumption].
              exists v. split; [now apply field_value_stored|reflexivity].
           ++ intros Hv'. destruct (Hr Hv') as [-> ->]. split; [reflexivity|].
              rewrite map_app, <- app_assoc. reflexivity.
      * injection Hrun as <- <-. exists [], ((key, f) :: items), [].
        split; [reflexivity|]. split; [now rewrite app_nil_r|].
        split; [constructor|]. split; [discriminate|repeat split].
Qed.

Lemma python_only_ret {A} (a : A) : python_only (ret a).
Proof. intros e H. discriminate H. Qed.

Lemma python_only_index {A} (l : list A) i : python_only (Py.index l i).
Proof.
  intros e H.
  destruct (index_is_val_or_IndexError l i) as [[x Hx]|Hx]; rewrite Hx in H.
  - discriminate H.
  - injection H as <-. reflexivity.
Qed.

Lemma python_only_str_utf8 bs : python_only (Py.str_utf8 bs).
Proof.
  intros e. unfold Py.str_utf8. destruct (Py.utf8_points _); intros H.
  - discriminate H.
  - injection H as <-. reflexivity.
Qed.

Lemma python_only_bind {A B} (c : Py.res A) (k : A -> Py.res B) :
  python_only c -> (forall a, python_only (k a)) -> python_only (bind c k).
Proof.
  intros Hc Hk e. cbn [bind res_Monad]. destruct c as [a|e'].
  - apply Hk.
  - intros H. injection H as <-. now apply Hc.
Qed.

Lemma python_only_mapM {A B} (f : A -> Py.res B) l :
  (forall x, python_only (f x)) -> python_only (mapM f l).
Proof.
  intros Hf. induction l as [|x l IH]; cbn [mapM].
  - apply python_only_ret.
  - apply python_only_bind; [apply Hf|]. intros y.
    apply python_only_bind; [apply IH|]. intros ys. apply python_only_ret.
Qed.

Create HintDb python_only.
#[local] Hint Resolve python_only_ret python_only_index python_only_str_utf8
  python_only_bind python_only_mapM : python_only.

(** Taking the value of a field raises nothing but Python's own errors. *)
Lemma python_only_field_value f : python_only (field_value f).
Proof.
  unfold field_value, string_value, array_value, scalar_value.
  apply python_only_bind; [auto with python_only|]. intros vt.
  destruct (type_eqb vt STRING); [|destruct (type_eqb vt ARRAY)].
  - repeat (apply python_only_bind; [auto with python_only|]; intros ?).
    auto with python_only.
  - apply python_only_bind; [auto with python_only|]. intros sub.
    apply python_only_bind; [|auto with python_only].
    destruct (type_eqb sub STRING);
      (apply python_only_bind; [|auto with python_only]);
      apply python_only_mapM; intros idx;
      apply python_only_bind; auto with python_only.
  - repeat (apply python_only_bind; [auto with python_only|]; intros ?).
    auto with python_only.
Qed.

(** With pairwise distinct keys, none of them already in the writer, no
    insertion is refused: every call adds its key. *)
Lemma copy_metadata_no_duplicate items : forall s r s' K,
  for_each items copy_field s = (r, s') ->
  map fst (kv_data (writer s)) = K ++ added_keys (calls s) ->
  NoDup ((K ++ added_keys (calls s)) ++ map fst (filter kept items)) ->
  r <> Py.Exc Py.DuplicateKey /\
  map fst (kv_data (writer s')) = K ++ added_keys (calls s').
Proof.
  induction items as [|[key f] items IH]; intros s r s' K Hrun Hkeys Hnd.
  - injection Hrun as <- <-. split; [discriminate|assumption].
  - rewrite for_each_cons, copy_field_run in Hrun.
    cbn [filter] in Hnd. unfold kept at 1 in Hnd. cbn [fst] in Hnd.
    destruct (Py.str_in key skip_keys) eqn:Hskip; cbn [negb] in Hnd.
    + now apply (IH _ _ _ K Hrun).
    + destruct (field_value f) as [v|e] eqn:Hv.
      * unfold invoke, add_key_value in Hrun.
        destruct (has_key key (kv_data (writer s))) eqn:Hk.
        -- exfalso. apply has_key_In in Hk. rewrite Hkeys in Hk.
           cbn [map] in Hnd. apply NoDup_remove_2 in Hnd.
           apply Hnd. apply in_or_app. now left.
        -- apply (IH _ _ _ K Hrun); cbn [writer kv_data calls].
           ++ rewrite map_app, Hkeys, added_keys_app, app_assoc. reflexivity.
           ++ rewrite added_keys_app. cbn [added_keys flat_map app].
              cbn [map] in Hnd. rewrite app_assoc, <- (app_assoc _ [key]).
              exact Hnd.
      * injection Hrun as <- <-. split; [|assumption].
        intros E. injection E as ->.
        apply python_only_field_value in Hv. discriminate Hv.
Qed.

(** With well-formed fields and distinct keys the metadata loop ends
    normally, and the writer gets, after the entries it had, one entry for
    each field that is not skipped: same key, the stored value, same order. *)
Lemma copy_metadata_complete items : forall s,
  forallb (fun item => negb (kept item) || well_formed (snd item)) items = true ->
  NoDup (map fst (kv_data (writer s)) ++ map fst (filter kept items)) ->
  exists entries s',
    for_each items copy_field s = (Py.Val tt, s') /\
    kv_data (writer s') = kv_data (writer s) ++ entries /\
    Forall2 (fun item e => fst e = fst item /\ stored (snd item) (snd e))
            (filter kept items) entries.
Proof.
  induction items as [|[key f] items IH]; intros s Hwf Hnd.
  - exists [], s. rewrite app_nil_r. repeat split. constructor.
  - cbn [forallb] in Hwf. apply andb_prop in Hwf. destruct Hwf as [Hf Hwf].
    rewrite for_each_cons, copy_field_run.
    cbn [filter] in *. unfold kept at 1 in Hf. unfold kept at 1 in Hnd.
    unfold kept at 1. cbn [fst snd] in *.
    destruct (Py.str_in key skip_keys) eqn:Hskip; cbn [negb orb] in *.
    + now apply IH.
    + destruct (well_formed_value f Hf) as [v Hv]. rewrite Hv.
      unfold invoke, add_key_value.
      destruct (has_key key (kv_data (writer s))) eqn:Hk.
      * exfalso. apply has_key_In in Hk. cbn [map] in Hnd.
        apply NoDup_remove_2 in Hnd. apply Hnd. apply in_or_app. now left.
      * match goal with |- context [for_each items copy_field ?s1] =>
          destruct (IH s1 Hwf) as (entries & s' & Hrun & Hkv & Hall) end.
        { cbn [writer kv_data]. rewrite map_app. cbn [map fst].
          rewrite <- app_assoc. exact Hnd. }
        exists ((key, {| value := value v; vtype := vtype v;
                         sub_type := sub_type v |}) :: entries), s'.
        split; [exact Hrun|]. split.
        -- rewrite Hkv. cbn [writer kv_data]. now rewrite <- app_assoc.
        -- constructor; [|assumption]. cbn [fst snd]. split; [reflexivity|].
           apply field_value_stored in Hv. now destruct v.
Qed.

Section RunFacts.

Variable element_size : Z -> Z.
Variable io_error : Py.str -> list Chunk -> list Chunk -> bool.

(** The tensor loop, seen from the calls: it goes through an initial segment
    of the tensors, all of them when it ends normally, makes one call for
    each, handing over the tensor as it is, and changes nothing of the
    writer but the tensor table. *)
Lemma copy_tensors_trace ts : forall s r s',
  for_each ts (copy_tensor element_size) s = (r, s') ->
  exists done todo,
    ts = done ++ todo /\
    calls s' = calls s ++ map tensor_call done /\
    (r = Py.Val tt -> todo = []) /\
    r <> Py.Exc Py.DuplicateKey /\
    kv_data (writer s') = kv_data (writer s) /\
    state (writer s') = state (writer s) /\
    fout (writer s') = fout (writer s).
Proof.
  induction ts as [|t ts IH]; intros s r s' Hrun.
  - injection Hrun as <- <-. exists [], [].
    split; [reflexivity|]. split; [now rewrite app_nil_r|].
    repeat split. discriminate.
  - rewrite for_each_cons in Hrun. unfold copy_tensor at 1 in Hrun.
    rewrite map_int in Hrun. unfold invoke in Hrun.
    destruct (add_tensor _ _ _ _ _ _) as [w|e] eqn:Hadd.
    + destruct (IH _ _ _ Hrun)
        as (done & todo & -> & Hc & Hr & Hne & Hkv & Hst & Hfo).
      cbn [calls writer] in *.
      assert (Hw : kv_data w = kv_data (writer s) /\ state w = state (writer s)
                   /\ fout w = fout (writer s)).
      { unfold add_tensor in Hadd.
        repeat match type of Hadd with
               | (if ?c then _ else _) = _ => destruct c; [discriminate|]
               end.
        injection Hadd as <-. repeat split. }
      destruct Hw as (Hw1 & Hw2 & Hw3).
      exists (t :: done), todo. rewrite Hc, <- app_assoc.
      repeat split; try assumption; congruence.
    + injection Hrun as <- <-. exists [t], ts.
      repeat split; try discriminate.
      unfold add_tensor in Hadd.
      repeat match type of Hadd with
             | (if ?c then _ else _) = _ => destruct c; [congruence|]
             end.
      discriminate Hadd.
Qed.

(** The writing phase on a writer that has written nothing yet: either the
    four calls are made and the file holds the header, the metadata, the
    descriptors and the tensor data, in that order; or one of the calls
    fails with an input/output error and is the last call. *)
Lemma write_file_cases s :
  state (writer s) = NO_FILE ->
  write_file io_error s =
  (Py.Val tt,
   {| writer :=
        {| path := path (writer s);
           kv_data := kv_data (writer s);
           tensor_infos := tensor_infos (writer s);
           state := WEIGHTS;
           fout := fout (writer s) ++
             [ChHeader (Z.of_nat (List.length (tensor_infos (writer s))))
                       (Z.of_nat (List.length (kv_data (writer s))));
              ChMetadata (kv_data (writer s));
              ChDescriptors
                (map (fun nt => (fst nt, (ti_shape (snd nt), ti_dtype (snd nt),
                                          ti_offset (snd nt))))
                     (tensor_infos (writer s)));
              ChTensorData
                (map (fun nt => (ti_offset (snd nt), tobytes (ti_tensor (snd nt))))
                     (tensor_infos (writer s)))] |};
      calls := calls s ++ write_sequence |})
  \/
  exists n s',
    (1 <= n <= 4)%nat /\
    write_file io_error s = (Py.Exc Py.IOError, s') /\
    calls s' = calls s ++ firstn n write_sequence /\
    kv_data (writer s') = kv_data (writer s) /\
    tensor_infos (writer s') = tensor_infos (writer s).
Proof.
  intros Hst.
  unfold write_file, invoke, write_header_to_file, write_kv_data_to_file,
    write_tensors_to_file, close, emit.
  cbn [bind M_Monad]. rewrite Hst.
  destruct (io_error _ _ _).
  { right. exists 1%nat. eexists. split; [lia|]. split; [reflexivity|].
    repeat split. }
  cbn [writer state path fout kv_data tensor_infos calls].
  destruct (io_error _ _ _).
  { right. exists 2%nat. eexists. split; [lia|]. split; [reflexivity|].
    cbn [calls writer kv_data tensor_infos]. rewrite <- app_assoc.
    repeat split. }
  cbn [writer state path fout kv_data tensor_infos calls].
  destruct (io_error _ _ _).
  { right. exists 3%nat. eexists. split; [lia|]. split; [reflexivity|].
    cbn [calls writer kv_data tensor_infos]. rewrite <- !app_assoc.
    repeat split. }
  cbn [writer state path fout kv_data tensor_infos calls].
  destruct (io_error _ _ _).
  { right. exists 4%nat. eexists. split; [lia|]. split; [reflexivity|].
    cbn [calls writer kv_data tensor_infos]. rewrite <- !app_assoc.
    repeat split. }
  left. rewrite <- !app_assoc. reflexivity.
Qed.

Lemma write_calls_add_nothing n :
  added_keys (firstn n write_sequence) = [] /\
  added_entries (firstn n write_sequence) = [] /\
  added_tensors (firstn n write_sequence) = [] /\
  Forall (fun c => is_add c = false) (firstn n write_sequence).
Proof.
  do 4 (destruct n as [|n]; [repeat split; repeat constructor|]).
  cbn [firstn write_sequence]. rewrite firstn_nil.
  repeat split; repeat constructor.
Qed.

Lemma rename_arch_unfold reader out arch :
  rename_arch element_size io_error reader out arch =
  match copy_metadata reader (start out arch) with
  | (Py.Val _, s1) =>
      match copy_tensors element_size reader s1 with
      | (Py.Val _, s2) => write_file io_error s2
      | (Py.Exc e, s2) => (Py.Exc e, s2)
      end
  | (Py.Exc e, s1) => (Py.Exc e, s1)
  end.
Proof. reflexivity. Qed.

(** The shape of every run.  The calls are: the construction of the writer,
    then the metadata calls for an initial segment of the fields, then the
    tensor calls for an initial segment of the tensors, then an initial
    segment of the writing calls.  The run ends in one of three ways:
    normally, having gone through everything and written the four parts of
    the file, the metadata being the new architecture entry and the entries
    of the calls; or raising while it adds, and then nothing was written; or
    with an input/output error in a writing call, after everything was
    added. *)
Lemma rename_arch_trace reader out arch :
  exists done_f todo_f kvcalls done_t todo_t wcalls,
    fields reader = done_f ++ todo_f /\
    tensors reader = done_t ++ todo_t /\
    calls (snd (rename_arch element_size io_error reader out arch)) =
      CallNew out arch :: kvcalls ++ map tensor_call done_t ++ wcalls /\
    Forall2 copied (filter kept done_f) kvcalls /\
    (fst (copy_metadata reader (start out arch)) = Py.Val tt -> todo_f = []) /\
    (done_t <> [] -> todo_f = []) /\
    (exists n, wcalls = firstn n write_sequence) /\
    ((fst (rename_arch element_size io_error reader out arch) = Py.Val tt /\
      todo_f = [] /\ todo_t = [] /\ wcalls = write_sequence /\
      exists n_t n_kv entries descs blobs,
        fout (writer (snd (rename_arch element_size io_error reader out arch)))
        = [ChHeader n_t n_kv; ChMetadata entries; ChDescriptors descs;
           ChTensorData blobs] /\
        map fst entries = KEY_ARCHITECTURE :: added_keys kvcalls)
     \/
     ((exists e, fst (rename_arch element_size io_error reader out arch) = Py.Exc e) /\
      wcalls = [] /\
      fout (writer (snd (rename_arch element_size io_error reader out arch))) = [])
     \/
     (fst (rename_arch element_size io_error reader out arch) = Py.Exc Py.IOError /\
      todo_f = [] /\ todo_t = [] /\ wcalls <> [])).
Proof.
  rewrite rename_arch_unfold.
  destruct (copy_metadata reader (start out arch)) as [r1 s1] eqn:H1.
  destruct (copy_metadata_trace _ _ _ _ H1)
    as (done_f & todo_f & kvcalls & Hf & Hc1 & Hcop & Hr1 & Hti1 & Hst1 & Hfo1).
  cbn [start calls writer GGUFWriter_new tensor_infos state fout kv_data] in *.
  destruct r1 as [[]|e1].
  - destruct (Hr1 eq_refl) as [Htodo Hkv1].
    destruct (copy_tensors element_size reader s1) as [r2 s2] eqn:H2.
    destruct (copy_tensors_trace _ _ _ _ H2)
      as (done_t & todo_t & Ht & Hc2 & Hr2 & _ & Hkv2 & Hst2 & Hfo2).
    destruct r2 as [[]|e2].
    + destruct (write_file_cases s2) as [Hw|(n & s3 & Hn & Hw & Hc3 & _)];
        [congruence| |]; rewrite Hw; cbn [fst snd calls writer fout].
      * exists done_f, todo_f, kvcalls, done_t, todo_t, write_sequence.
        rewrite Hc2, Hc1, Hfo2, Hfo1, Hkv2. cbn [app].
        rewrite <- !app_assoc.
        split; [assumption|]. split; [assumption|]. split; [reflexivity|].
        split; [assumption|]. split; [auto|]. split; [auto|].
        split; [now exists 4%nat|].
        left. split; [reflexivity|]. split; [assumption|].
        split; [now apply Hr2|]. split; [reflexivity|].
        do 5 eexists. split; [reflexivity|]. exact Hkv1.
      * exists done_f, todo_f, kvcalls, done_t, todo_t, (firstn n write_sequence).
        rewrite Hc3, Hc2, Hc1. cbn [app]. rewrite <- !app_assoc.
        split; [assumption|]. split; [assumption|]. split; [reflexivity|].
        split; [assumption|]. split; [auto|]. split; [auto|].
        split; [now exists n|].
        right. right. split; [reflexivity|]. split; [assumption|].
        split; [now apply Hr2|].
        destruct n as [|n]; [lia|discriminate].
    + exists done_f, todo_f, kvcalls, done_t, todo_t, [].
      cbn [fst snd]. rewrite Hc2, Hc1, Hfo2, Hfo1, app_nil_r. cbn [app].
      rewrite <- ?app_assoc.
      split; [assumption|]. split; [assumption|]. split; [reflexivity|].
      split; [assumption|]. split; [auto|]. split; [auto|].
      split; [now exists 0%nat|].
      right. left. split; [eauto|]. split; reflexivity.
  - exists done_f, todo_f, kvcalls, [], (tensors reader), [].
    cbn [fst snd map]. rewrite Hc1, Hfo1, !app_nil_r. cbn [app].
    split; [assumption|]. split; [reflexivity|]. split; [reflexivity|].
    split; [assumption|]. split; [discriminate|]. split; [congruence|].
    split; [now exists 0%nat|].
    right. left. split; [eauto|]. split; reflexivity.
Qed.

Lemma copied_keys items kvcalls :
  Forall2 copied items kvcalls ->
  added_keys kvcalls = map fst items /\
  added_entries kvcalls = kvcalls /\
  added_tensors kvcalls = [].
Proof.
  induction 1 as [|item c items kvcalls [v [_ ->]] _ (IH1 & IH2 & IH3)].
  - repeat split.
  - unfold added_keys, added_entries, added_tensors in *.
    cbn [flat_map filter app]. rewrite IH1, IH2, IH3. repeat split.
Qed.

Lemma copied_are_adds items kvcalls :
  Forall2 copied items kvcalls -> forallb is_add kvcalls = true.
Proof.
  induction 1 as [|item c items cs [v [_ ->]] _ IH]; [reflexivity|exact IH].
Qed.

Lemma tensor_calls_only ts :
  added_keys (map tensor_call ts) = [] /\
  added_entries (map tensor_call ts) = [] /\
  added_tensors (map tensor_call ts) = map tensor_call ts.
Proof.
  induction ts as [|t ts (IH1 & IH2 & IH3)]; [repeat split|].
  unfold added_keys, added_entries, added_tensors in *.
  cbn [map tensor_call flat_map filter app]. rewrite IH1, IH2, IH3.
  repeat split.
Qed.

Lemma copied_in items kvcalls c :
  Forall2 copied items kvcalls -> In c kvcalls ->
  exists item, In item items /\ copied item c.
Proof.
  induction 1 as [|item c' items kvcalls Hc _ IH]; intros Hin.
  - destruct Hin.
  - destruct Hin as [<-|Hin].
    + exists item. split; [now left|assumption].
    + destruct (IH Hin) as [item' [Hi Hc']]. exists item'. split; [now right|assumption].
Qed.

Lemma kept_not_skipped item :
  kept item = true -> ~ In (fst item) skip_keys.
Proof.
  unfold kept. intros H Hin. apply str_in_In in Hin. rewrite Hin in H.
  discriminate H.
Qed.

(** The calls of a run, sorted by kind. *)
Lemma rename_arch_calls reader out arch :
  exists done_f todo_f kvcalls done_t,
    fields reader = done_f ++ todo_f /\
    Forall2 copied (filter kept done_f) kvcalls /\
    (fst (copy_metadata reader (start out arch)) = Py.Val tt -> todo_f = []) /\
    added_keys (calls (snd (rename_arch element_size io_error reader out arch)))
      = map fst (filter kept done_f) /\
    added_entries (calls (snd (rename_arch element_size io_error reader out arch)))
      = kvcalls /\
    added_tensors (calls (snd (rename_arch element_size io_error reader out arch)))
      = map tensor_call done_t.
Proof.
  destruct (rename_arch_trace reader out arch)
    as (done_f & todo_f & kvcalls & done_t & todo_t & wcalls
        & Hf & Ht & Hc & Hcop & Hm & _ & [n ->] & _).
  exists done_f, todo_f, kvcalls, done_t.
  destruct (copied_keys _ _ Hcop) as (K1 & K2 & K3).
  destruct (tensor_calls_only done_t) as (T1 & T2 & T3).
  destruct (write_calls_add_nothing n) as (W1 & W2 & W3 & _).
  rewrite Hc. unfold added_keys, added_entries, added_tensors in *.
  cbn [flat_map filter app].
  rewrite !flat_map_app, !filter_app, K1, K2, K3, T1, T2, T3, W1, W2, W3.
  rewrite !app_nil_r. repeat split; assumption.
Qed.

(** C2. In every run, whatever the reader holds, none of the keys
    [general.architecture], [GGUF.version], [GGUF.tensor_count] and
    [GGUF.kv_count] is the key of an [add_key_value] call: the metadata loop
    never copies a bookkeeping field as an ordinary entry. *)
Theorem bookkeeping_keys_never_added reader out arch :
  Forall (fun key => key <> Py.lit "general.architecture" /\
                     key <> Py.lit "GGUF.version" /\
                     key <> Py.lit "GGUF.tensor_count" /\
                     key <> Py.lit "GGUF.kv_count")
         (added_keys (calls (snd (rename_arch element_size io_error reader out arch)))).
Proof.
  destruct (rename_arch_calls reader out arch)
    as (done_f & todo_f & kvcalls & done_t & _ & _ & _ & -> & _).
  apply Forall_forall. intros key Hin.
  apply in_map_iff in Hin. destruct Hin as [item [<- Hin]].
  apply filter_In in Hin. destruct Hin as [_ Hk].
  apply kept_not_skipped in Hk. unfold skip_keys in Hk. cbn [In] in Hk.
  repeat split; intros E; apply Hk; rewrite E; tauto.
Qed.

(** C5. In every run, the entries handed to [add_key_value] are, call by
    call and in call order, the fields of an initial segment of the reader's
    [fields] that are not skipped, each with its key and stored value: the
    keys of the calls follow the reader's iteration order, with no
    reordering.  When the metadata loop ends normally the segment is the
    whole of [fields].  When the run ends normally, the keys of the metadata
    in the file are [general.architecture] followed by the reader's keys that
    are not skipped, in the reader's order. *)
Theorem metadata_order_preserved reader out arch :
  (exists done todo,
     fields reader = done ++ todo /\
     Forall2 copied (filter kept done)
       (added_entries (calls (snd (rename_arch element_size io_error reader out arch)))) /\
     (fst (copy_metadata reader (start out arch)) = Py.Val tt -> todo = [])) /\
  prefix (added_keys (calls (snd (rename_arch element_size io_error reader out arch))))
         (map fst (filter kept (fields reader))) /\
  (fst (copy_metadata reader (start out arch)) = Py.Val tt ->
   added_keys (calls (snd (rename_arch element_size io_error reader out arch)))
   = map fst (filter kept (fields reader))) /\
  (fst (rename_arch element_size io_error reader out arch) = Py.Val tt ->
   exists n_t n_kv entries descs blobs,
     fout (writer (snd (rename_arch element_size io_error reader out arch)))
     = [ChHeader n_t n_kv; ChMetadata entries; ChDescriptors descs;
        ChTensorData blobs] /\
     map fst entries
     = Py.lit "general.architecture" :: map fst (filter kept (fields reader))).
Proof.
  split; [|split; [|split]].
  - destruct (rename_arch_calls reader out arch)
      as (done_f & todo_f & kvcalls & done_t & Hf & Hcop & Hm & _ & -> & _).
    exists done_f, todo_f. repeat split; assumption.
  - destruct (rename_arch_calls reader out arch)
      as (done_f & todo_f & kvcalls & done_t & Hf & _ & _ & -> & _).
    exists (map fst (filter kept todo_f)).
    now rewrite Hf, filter_app, map_app.
  - destruct (rename_arch_calls reader out arch)
      as (done_f & todo_f & kvcalls & done_t & Hf & _ & Hm & -> & _).
    intros Hdone. rewrite Hf, (Hm Hdone), app_nil_r. reflexivity.
  - intros Hrun.
    destruct (rename_arch_trace reader out arch)
      as (done_f & todo_f & kvcalls & done_t & todo_t & wcalls
          & Hf & _ & _ & Hcop & _ & _ & _ & Hend).
    destruct Hend as [(_ & Htodo & _ & _ & Hfile)|[([e He] & _)|(He & _)]];
      [|rewrite He in Hrun; discriminate Hrun
       |rewrite He in Hrun; discriminate Hrun].
    destruct Hfile as (n_t & n_kv & entries & descs & blobs & Hfo & Hkeys).
    exists n_t, n_kv, entries, descs, blobs. split; [exact Hfo|].
    destruct (copied_keys _ _ Hcop) as (K1 & _).
    rewrite Hkeys, K1, Hf, Htodo, app_nil_r. reflexivity.
Qed.

(** C6. In every run the calls are: the construction of the writer, then
    calls that are all [add_key_value] or [add_tensor], then writing calls
    only, which are an initial segment of header, metadata, tensors, close,
    in that order: no [add] call comes after a writing call, and when a
    writing call is made every field that is not skipped and every tensor has
    been added.  A run that ends normally has made the four writing calls,
    and its file holds the header, then the metadata, then the descriptors,
    then the tensor data, and nothing else.  A run that raises anything but
    an input/output error has made no writing call and written nothing. *)
Theorem adds_before_ordered_writes reader out arch :
  exists adds writes,
    calls (snd (rename_arch element_size io_error reader out arch))
      = CallNew out arch :: adds ++ writes /\
    forallb is_add adds = true /\
    prefix writes [CallWriteHeader; CallWriteKV; CallWriteTensors; CallClose] /\
    (writes <> [] ->
     added_keys adds = map fst (filter kept (fields reader)) /\
     added_tensors adds = map tensor_call (tensors reader)) /\
    (fst (rename_arch element_size io_error reader out arch) = Py.Val tt ->
     writes = [CallWriteHeader; CallWriteKV; CallWriteTensors; CallClose] /\
     exists n_t n_kv entries descs blobs,
       fout (writer (snd (rename_arch element_size io_error reader out arch)))
       = [ChHeader n_t n_kv; ChMetadata entries; ChDescriptors descs;
          ChTensorData blobs]) /\
    (forall e,
       fst (rename_arch element_size io_error reader out arch) = Py.Exc e ->
       e <> Py.IOError ->
       writes = [] /\
       fout (writer (snd (rename_arch element_size io_error reader out arch))) = []).
Proof.
  destruct (rename_arch_trace reader out arch)
    as (done_f & todo_f & kvcalls & done_t & todo_t & wcalls
        & Hf & Ht & Hc & Hcop & _ & _ & [n Hn] & Hend).
  exists (kvcalls ++ map tensor_call done_t), wcalls.
  destruct (copied_keys _ _ Hcop) as (K1 & _ & K3).
  destruct (tensor_calls_only done_t) as (T1 & _ & T3).
  split; [now rewrite Hc, <- app_assoc|]. split; [|split; [|split; [|split]]].
  - rewrite forallb_app. apply andb_true_intro. split.
    + exact (copied_are_adds _ _ Hcop).
    + clear. induction done_t; [reflexivity|assumption].
  - exists (skipn n write_sequence). rewrite Hn. symmetry.
    apply (firstn_skipn n write_sequence).
  - intros Hne.
    assert (Hall : todo_f = [] /\ todo_t = []).
    { destruct Hend as [(_ & H1 & H2 & _)|[(_ & H & _)|(_ & H1 & H2 & _)]];
        [now split|contradiction|now split]. }
    destruct Hall as [-> ->]. rewrite app_nil_r in Hf, Ht. subst done_f done_t.
    rewrite added_keys_app, added_tensors_app, K1, K3, T1, T3, app_nil_r.
    split; reflexivity.
  - intros Hrun.
    destruct Hend as [(_ & _ & _ & Hw & Hfile)|[([e He] & _)|(He & _)]];
      [|rewrite He in Hrun; discriminate Hrun
       |rewrite He in Hrun; discriminate Hrun].
    split; [exact Hw|].
    destruct Hfile as (n_t & n_kv & entries & descs & blobs & Hfo & _).
    now exists n_t, n_kv, entries, descs, blobs.
  - intros e Hrun Hio.
    destruct Hend as [(He & _)|[(_ & Hw & Hfo)|(He & _)]].
    + rewrite He in Hrun. discriminate Hrun.
    + now split.
    + rewrite He in Hrun. injection Hrun as <-. now destruct Hio.
Qed.



Lemma NoDup_keys_filter {V} (p : Py.str * V -> bool) l :
  NoDup (map fst l) -> NoDup (map fst (filter p l)).
Proof.
  induction l as [|x l IH]; intros H; [constructor|].
  cbn [map] in H. apply NoDup_cons_iff in H. destruct H as [Hx Hl].
  cbn [filter]. destruct (p x); [|now apply IH].
  cbn [map]. constructor; [|now apply IH].
  intros Hin. apply Hx. apply in_map_iff in Hin.
  destruct Hin as [y [E Hy]]. apply filter_In in Hy.
  apply in_map_iff. exists y. now split.
Qed.

(** The keys the loop inserts are distinct from one another and from the key
    the new writer holds. *)
Lemma NoDup_start_keys items :
  NoDup (map fst items) ->
  NoDup (KEY_ARCHITECTURE :: map fst (filter kept items)).
Proof.
  intros H. constructor; [|now apply NoDup_keys_filter].
  intros Hin. apply in_map_iff in Hin. destruct Hin as [item [E Hi]].
  apply filter_In in Hi. destruct Hi as [_ Hk].
  apply kept_not_skipped in Hk. apply Hk. rewrite E. now left.
Qed.

(** C9. When the keys of the reader's fields are pairwise distinct, no run
    ends with DuplicateKey, and every [add_key_value] call inserted its key:
    the keys the writer holds at the end are [general.architecture], which
    the new writer held, followed by the keys of the calls, in call order;
    and these keys are pairwise distinct, so each was inserted once. *)
Theorem no_duplicate_key reader out arch :
  NoDup (map fst (fields reader)) ->
  fst (rename_arch element_size io_error reader out arch) <> Py.Exc Py.DuplicateKey /\
  map fst (kv_data (writer (snd (rename_arch element_size io_error reader out arch))))
  = KEY_ARCHITECTURE ::
    added_keys (calls (snd (rename_arch element_size io_error reader out arch))) /\
  NoDup (KEY_ARCHITECTURE ::
         added_keys (calls (snd (rename_arch element_size io_error reader out arch)))).
Proof.
  intros Hnd.
  destruct (rename_arch_calls reader out arch)
    as (done_f & todo_f & kvcalls & done_t & Hf & _ & _ & Hk & _).
  rewrite <- and_assoc. split.
  2:{ rewrite Hk. apply NoDup_start_keys.
      rewrite Hf, map_app in Hnd. now apply NoDup_app_remove_r in Hnd. }
  clear done_f todo_f kvcalls done_t Hf Hk.
  rewrite rename_arch_unfold.
  destruct (copy_metadata reader (start out arch)) as [r1 s1] eqn:H1.
  destruct (copy_metadata_no_duplicate _ _ _ _ [KEY_ARCHITECTURE] H1 eq_refl)
    as [Hr1 Hk1].
  { cbn [start calls added_keys flat_map app]. now apply NoDup_start_keys. }
  destruct (copy_metadata_trace _ _ _ _ H1)
    as (done_f & todo_f & kvcalls & _ & _ & _ & _ & _ & Hst1 & _).
  destruct r1 as [[]|e1]; [|split; assumption].
  destruct (copy_tensors element_size reader s1) as [r2 s2] eqn:H2.
  destruct (copy_tensors_trace _ _ _ _ H2)
    as (done_t & todo_t & _ & Hc2 & _ & Hr2 & Hkv2 & Hst2 & _).
  destruct (tensor_calls_only done_t) as (T1 & _).
  destruct r2 as [[]|e2].
  - destruct (write_file_cases s2) as [Hw|(n & s3 & _ & Hw & Hc3 & Hkv3 & _)];
      [rewrite Hst2, Hst1; reflexivity| |]; rewrite Hw;
      cbn [fst snd writer calls kv_data]; (split; [discriminate|]).
    + rewrite Hkv2, Hk1, Hc2, !added_keys_app, T1. cbn [app].
      now rewrite !app_nil_r.
    + destruct (write_calls_add_nothing n) as (W1 & _).
      rewrite Hkv3, Hc3, Hkv2, Hk1, Hc2, !added_keys_app, T1, W1. cbn [app].
      now rewrite !app_nil_r.
  - cbn [fst snd]. split; [assumption|].
    rewrite Hkv2, Hk1, Hc2, !added_keys_app, T1. cbn [app].
    now rewrite !app_nil_r.
Qed.

(** X1. In every run, every [add_key_value] call whose value type is neither
    STRING nor ARRAY copies a field of the reader with that key and that
    first type; the value passed is the first element of the field's last
    part, and no element type is passed. *)
Theorem scalar_entries_copied reader out arch :
  Forall (fun c =>
            match c with
            | CallAddKeyValue key val vt st =>
                vt <> STRING -> vt <> ARRAY ->
                exists f rest part x,
                  In (key, f) (fields reader) /\
                  types f = vt :: rest /\
                  Py.index (parts f) (-1) = Py.Val part /\
                  Py.index (tolist part) 0 = Py.Val x /\
                  val = PyScalar x /\
                  st = None
            | _ => True
            end)
         (calls (snd (rename_arch element_size io_error reader out arch))).
Proof.
  destruct (rename_arch_trace reader out arch)
    as (done_f & todo_f & kvcalls & done_t & todo_t & wcalls
        & Hf & _ & Hc & Hcop & _ & _ & [n ->] & _).
  rewrite Hc. apply Forall_cons; [exact I|].
  apply Forall_app. split; [|apply Forall_app; split].
  - apply Forall_forall. intros c Hin.
    destruct (copied_in _ _ _ Hcop Hin) as [[key f] [Hi [v [Hs ->]]]].
    apply filter_In in Hi. destruct Hi as [Hi _].
    assert (Hfield : In (key, f) (fields reader))
      by (rewrite Hf; apply in_or_app; now left).
    cbn [fst snd] in *.
    destruct Hs as [s rest Ht Hh|l rest Ht Hh|sub ll rest Ht Hn Hh|t x xs rest Ht Hn1 Hn2 Hh];
      cbn [value vtype sub_type]; intros H1 H2; try congruence.
    destruct Hh as [part [Hp Hl]].
    exists f, rest, part, x. repeat split; try assumption.
    rewrite Hl. apply index_0_cons.
  - apply Forall_forall. intros c Hin. apply in_map_iff in Hin.
    destruct Hin as [t [<- _]]. exact I.
  - destruct (write_calls_add_nothing n) as (_ & _ & _ & Hw).
    eapply Forall_impl; [|exact Hw]. intros c Hc'. now destruct c.
Qed.

(** X2. In every run the calls are the construction of the writer, then all
    the [add_key_value] calls, then all the [add_tensor] calls, then calls
    that add nothing: metadata and tensors are never interleaved.  When an
    [add_tensor] call was made, every field that is not skipped has had its
    [add_key_value] call. *)
Theorem metadata_before_tensors reader out arch :
  exists writes,
    calls (snd (rename_arch element_size io_error reader out arch))
    = CallNew out arch ::
      added_entries (calls (snd (rename_arch element_size io_error reader out arch))) ++
      added_tensors (calls (snd (rename_arch element_size io_error reader out arch))) ++
      writes /\
    Forall (fun c => is_add c = false) writes /\
    (added_tensors (calls (snd (rename_arch element_size io_error reader out arch))) <> [] ->
     added_keys (calls (snd (rename_arch element_size io_error reader out arch)))
     = map fst (filter kept (fields reader))).
Proof.
  destruct (rename_arch_trace reader out arch)
    as (done_f & todo_f & kvcalls & done_t & todo_t & wcalls
        & Hf & _ & Hc & Hcop & _ & Hdt & [n Hn] & _).
  destruct (copied_keys _ _ Hcop) as (K1 & K2 & K3).
  destruct (tensor_calls_only done_t) as (T1 & T2 & T3).
  destruct (write_calls_add_nothing n) as (W1 & W2 & W3 & W4).
  rewrite <- Hn in W1, W2, W3, W4.
  assert (He : added_entries (calls (snd (rename_arch element_size io_error reader out arch)))
               = kvcalls).
  { rewrite Hc. unfold added_entries in *. cbn [filter].
    rewrite !filter_app, K2, T2, W2, !app_nil_r. reflexivity. }
  assert (Ht : added_tensors (calls (snd (rename_arch element_size io_error reader out arch)))
               = map tensor_call done_t).
  { rewrite Hc. unfold added_tensors in *. cbn [filter].
    rewrite !filter_app, K3, T3, W3, app_nil_r. reflexivity. }
  assert (Hk : added_keys (calls (snd (rename_arch element_size io_error reader out arch)))
               = map fst (filter kept done_f)).
  { rewrite Hc. unfold added_keys in *. cbn [flat_map app].
    rewrite !flat_map_app, K1, T1, W1, !app_nil_r. reflexivity. }
  exists wcalls. rewrite He, Ht, Hk. split; [exact Hc|]. split; [exact W4|].
  intros Hne. rewrite Hf, Hdt, app_nil_r; [reflexivity|].
  intros ->. now apply Hne.
Qed.

Lemma for_each_filter_kept items : forall s,
  for_each (filter kept items) copy_field s = for_each items copy_field s.
Proof.
  induction items as [|[key f] items IH]; intros s; [reflexivity|].
  cbn [filter]. unfold kept at 1. cbn [fst].
  destruct (Py.str_in key skip_keys) eqn:Hskip; cbn [negb].
  - rewrite (for_each_cons copy_field (key, f) items), copy_field_run, Hskip.
    apply IH.
  - rewrite !for_each_cons.
    destruct (copy_field (key, f) s) as [[u|e] s1]; [apply IH|reflexivity].
Qed.

(** X3. The fields under the four skipped keys play no part: the run on a
    reader is the run on the same reader without them (same end, same calls,
    same writer, same file), whatever those fields hold. *)
Theorem skipped_fields_ignored reader out arch :
  rename_arch element_size io_error
    {| fields := filter kept (fields reader); tensors := tensors reader |}
    out arch
  = rename_arch element_size io_error reader out arch.
Proof.
  rewrite !rename_arch_unfold. unfold copy_metadata, copy_tensors.
  cbn [fields tensors]. rewrite for_each_filter_kept. reflexivity.
Qed.

Lemma holds_text_at f idx s : holds_text f idx s -> text_at f idx = true.
Proof.
  intros [part [Hp Hu]]. unfold text_at. now rewrite Hp, Hu.
Qed.

Lemma holds_numbers_at f idx xs : holds_numbers f idx xs -> part_at f idx = true.
Proof.
  intros [part [Hp _]]. unfold part_at. now rewrite Hp.
Qed.

Lemma Forall2_forallb {A B} (R : A -> B -> Prop) (p : A -> bool) l l' :
  (forall a b, R a b -> p a = true) -> Forall2 R l l' -> forallb p l = true.
Proof.
  intros HR. induction 1 as [|a b l l' Hab _ IH]; [reflexivity|].
  cbn [forallb]. now rewrite (HR a b Hab), IH.
Qed.

(** A field that stores a value is well formed. *)
Lemma stored_well_formed f v : stored f v -> well_formed f = true.
Proof.
  unfold well_formed.
  intros [s rest Ht Hh|l rest Ht Hh|sub ll rest Ht Hn Hh|t x xs rest Ht Hn1 Hn2 Hh];
    rewrite Ht.
  - now apply holds_text_at with (s := s).
  - eapply Forall2_forallb; [|exact Hh]. intros a b. apply holds_text_at.
  - assert (H : forallb (part_at f) (data f) = true)
      by (eapply Forall2_forallb; [|exact Hh]; intros a b;
          apply holds_numbers_at).
    destruct sub; (assumption || now destruct Hn).
  - destruct Hh as [part [Hp Hl]]. rewrite Hp, Hl.
    destruct t; (reflexivity || now destruct Hn1 || now destruct Hn2).
Qed.

Lemma ill_formed_value f :
  well_formed f = false ->
  exists e, from_python e = true /\ field_value f = Py.Exc e.
Proof.
  intros Hwf. destruct (field_value f) as [v|e] eqn:Hv.
  - apply field_value_stored, stored_well_formed in Hv. congruence.
  - exists e. split; [|reflexivity]. now apply (python_only_field_value f).
Qed.

(** X4. A field that is not skipped gets its [add_key_value] call, with its
    key and the value it stores, exactly when it is well formed; when it is
    not, the loop body raises IndexError or UnicodeDecodeError and changes
    nothing: no call is made and the writer is as before. *)
Theorem copy_field_well_formed key f s :
  Py.str_in key skip_keys = false ->
  (well_formed f = true ->
   exists v, stored f v /\
             calls (snd (copy_field (key, f) s))
             = calls s ++ [CallAddKeyValue key (value v) (vtype v) (sub_type v)]) /\
  (well_formed f = false ->
   exists e, from_python e = true /\ copy_field (key, f) s = (Py.Exc e, s)).
Proof.
  intros Hskip. rewrite copy_field_run, Hskip. split; intros Hwf.
  - destruct (well_formed_value f Hwf) as [v Hv]. rewrite Hv.
    exists v. split; [now apply field_value_stored|].
    unfold invoke. destruct (add_key_value _ _ _ _ _); reflexivity.
  - destruct (ill_formed_value f Hwf) as [e [He Hv]]. rewrite Hv.
    exists e. split; [assumption|reflexivity].
Qed.

Lemma for_each_app {A} (body : A -> M unit) l1 l2 : forall s,
  for_each (l1 ++ l2) body s =
  match for_each l1 body s with
  | (Py.Val _, s1) => for_each l2 body s1
  | (Py.Exc e, s1) => (Py.Exc e, s1)
  end.
Proof.
  induction l1 as [|x l1 IH]; intros s; [reflexivity|].
  cbn [app]. rewrite !for_each_cons.
  destruct (body x s) as [[u|e] s1]; [apply IH|reflexivity].
Qed.

(** X5. The first field that is neither skipped nor well formed ends the
    run.  When the fields before it have pairwise distinct keys and are each
    skipped or well formed, the run raises IndexError or UnicodeDecodeError;
    the calls made are the construction of the writer and one
    [add_key_value] for each earlier field that is not skipped, in order; no
    tensor is added, whatever the reader's tensors are, and nothing is
    written. *)
Theorem first_ill_formed_field_ends_run reader out arch done key f rest :
  fields reader = done ++ (key, f) :: rest ->
  NoDup (map fst done) ->
  forallb (fun item => negb (kept item) || well_formed (snd item)) done = true ->
  Py.str_in key skip_keys = false ->
  well_formed f = false ->
  exists e kvcalls,
    from_python e = true /\
    fst (rename_arch element_size io_error reader out arch) = Py.Exc e /\
    calls (snd (rename_arch element_size io_error reader out arch))
    = CallNew out arch :: kvcalls /\
    Forall2 copied (filter kept done) kvcalls /\
    fout (writer (snd (rename_arch element_size io_error reader out arch))) = [].
Proof.
  intros Hf Hnd Hok Hskip Hwf.
  rewrite rename_arch_unfold. unfold copy_metadata. rewrite Hf, for_each_app.
  destruct (copy_metadata_complete done (start out arch) Hok)
    as (entries & s1 & H1 & _ & _).
  { now apply NoDup_start_keys. }
  rewrite H1.
  destruct (copy_metadata_trace _ _ _ _ H1)
    as (done' & todo & kvcalls & Hd & Hc & Hcop & Hr & _ & _ & Hfo).
  destruct (Hr eq_refl) as [-> _]. rewrite app_nil_r in Hd. subst done'.
  rewrite for_each_cons, copy_field_run, Hskip.
  destruct (ill_formed_value f Hwf) as (e & He & Hv). rewrite Hv.
  exists e, kvcalls. cbn [fst snd].
  repeat split; try assumption.
Qed.

Lemma index_In {A} (l : list A) i x : Py.index l i = Py.Val x -> In x l.
Proof.
  unfold Py.index. destruct (_ && _); [|discriminate].
  destruct (nth_error l _) as [y|] eqn:E; [|discriminate].
  intros H. injection H as <-. now apply nth_error_In in E.
Qed.

Lemma index_not_unicode {A} (l : list A) i :
  Py.index l i <> Py.Exc Py.UnicodeDecodeError.
Proof.
  destruct (index_is_val_or_IndexError l i) as [[x ->]| ->]; discriminate.
Qed.

Lemma mapM_res_Exc {A B} (f : A -> Py.res B) l e :
  mapM f l = Py.Exc e -> exists x, In x l /\ f x = Py.Exc e.
Proof.
  induction l as [|x l IH]; [discriminate|].
  cbn [mapM bind res_Monad ret].
  destruct (f x) as [y|e'] eqn:Ex.
  - destruct (mapM f l) as [ys|e'']; [discriminate|].
    intros H. injection H as ->. destruct (IH eq_refl) as [x' [Hin Hx']].
    exists x'. split; [now right|assumption].
  - intros H. injection H as ->. exists x. split; [now left|assumption].
Qed.

Lemma text_unicode_error f idx :
  (part <- Py.index (parts f) idx ;; Py.str_utf8 (tobytes part))
  = Py.Exc Py.UnicodeDecodeError ->
  exists part, In part (parts f) /\
               Py.utf8_points (map Py.byte_val (tobytes part)) = None.
Proof.
  cbn [bind res_Monad].
  destruct (Py.index (parts f) idx) as [part|e] eqn:Hp.
  - unfold Py.str_utf8. destruct (Py.utf8_points _) eqn:Hu; [discriminate|].
    intros _. exists part. split; [now apply index_In in Hp|assumption].
  - intros H. injection H as ->. now apply index_not_unicode in Hp.
Qed.

(** UnicodeDecodeError comes from a part whose bytes are not UTF-8. *)
Lemma field_value_unicode_error f :
  field_value f = Py.Exc Py.UnicodeDecodeError ->
  exists part, In part (parts f) /\
               Py.utf8_points (map Py.byte_val (tobytes part)) = None.
Proof.
  unfold field_value. cbn [bind res_Monad ret].
  destruct (Py.index (types f) 0) as [vt|e] eqn:E0.
  2:{ intros H. injection H as ->. now apply index_not_unicode in E0. }
  destruct (type_eqb vt STRING); [|destruct (type_eqb vt ARRAY)].
  - unfold string_value. intros H. apply (text_unicode_error f (-1)).
    cbn [bind res_Monad ret] in *.
    destruct (Py.index (parts f) (-1)) as [part|e]; [|congruence].
    destruct (Py.str_utf8 (tobytes part)); [discriminate|congruence].
  - destruct (Py.index (types f) 1) as [sub|e] eqn:E1.
    2:{ intros H. injection H as ->. now apply index_not_unicode in E1. }
    unfold array_value. destruct (type_eqb sub STRING); cbn [bind res_Monad ret].
    + destruct (mapM _ (data f)) as [l|e] eqn:Em; [discriminate|].
      intros H. injection H as ->.
      apply mapM_res_Exc in Em. destruct Em as [idx [_ Hidx]].
      now apply (text_unicode_error f idx).
    + destruct (mapM _ (data f)) as [l|e] eqn:Em; [discriminate|].
      intros H. injection H as ->.
      apply mapM_res_Exc in Em. destruct Em as [idx [_ Hidx]].
      cbn [bind res_Monad ret] in Hidx.
      destruct (Py.index (parts f) idx) as [part|e] eqn:Hp; [discriminate|].
      injection Hidx as ->. now apply index_not_unicode in Hp.
  - unfold scalar_value. cbn [bind res_Monad ret].
    destruct (Py.index (parts f) (-1)) as [part|e] eqn:Hp.
    2:{ intros H. injection H as ->. now apply index_not_unicode in Hp. }
    destruct (Py.index (tolist part) 0) as [x|e] eqn:Hx; [discriminate|].
    intros H. injection H as ->. now apply index_not_unicode in Hx.
Qed.

(** An exception of the metadata loop is DuplicateKey, from the writer, or
    comes from taking the value of a field that is not skipped. *)
Lemma copy_metadata_raises items : forall s e s',
  for_each items copy_field s = (Py.Exc e, s') ->
  e = Py.DuplicateKey \/
  exists key f, In (key, f) items /\ Py.str_in key skip_keys = false /\
                field_value f = Py.Exc e.
Proof.
  induction items as [|[key f] items IH]; intros s e s' Hrun; [discriminate|].
  assert (Hnext : forall s1, for_each items copy_field s1 = (Py.Exc e, s') ->
            e = Py.DuplicateKey \/
            exists key' f', In (key', f') ((key, f) :: items) /\
                            Py.str_in key' skip_keys = false /\
                            field_value f' = Py.Exc e).
  { intros s1 H1. destruct (IH _ _ _ H1) as [H|(k & g & Hin & Hk & Hg)];
      [now left|right]. exists k, g. split; [now right|now split]. }
  rewrite for_each_cons, copy_field_run in Hrun.
  destruct (Py.str_in key skip_keys) eqn:Hskip; [now apply (Hnext s)|].
  destruct (field_value f) as [v|e'] eqn:Hv.
  - unfold invoke, add_key_value in Hrun.
    destruct (has_key key (kv_data (writer s))).
    + injection Hrun as <- _. now left.
    + now apply Hnext in Hrun.
  - injection Hrun as -> _. right. exists key, f.
    split; [now left|now split].
Qed.

(** An exception of the tensor loop comes from the writer refusing a tensor,
    after the call for that tensor. *)
Lemma copy_tensors_raises ts : forall s e s',
  for_each ts (copy_tensor element_size) s = (Py.Exc e, s') ->
  (e = Py.ShapeMismatch \/ e = Py.DuplicateTensorName \/ e = Py.InvalidShape) /\
  exists before t,
    In t ts /\ calls s' = calls s ++ map tensor_call before ++ [tensor_call t].
Proof.
  induction ts as [|t ts IH]; intros s e s' Hrun; [discriminate|].
  rewrite for_each_cons in Hrun. unfold copy_tensor at 1 in Hrun.
  rewrite map_int in Hrun. unfold invoke in Hrun.
  destruct (add_tensor _ _ _ _ _ _) as [w|e'] eqn:Hadd.
  - destruct (IH _ _ _ Hrun) as [Hk (before & t' & Hin & Hc)]. split; [exact Hk|].
    exists (t :: before), t'. split; [now right|].
    rewrite Hc. cbn [calls map]. now rewrite <- app_assoc.
  - injection Hrun as -> <-. split.
    + unfold add_tensor in Hadd.
      repeat match type of Hadd with
             | (if ?c then _ else _) = _ => destruct c; [injection Hadd as <-; tauto|]
             end.
      discriminate Hadd.
    + exists [], t. split; [now left|reflexivity].
Qed.

(** X6. A run ends with UnicodeDecodeError only when some field that is not
    skipped holds a part whose bytes are not valid UTF-8: on a reader whose
    parts all decode, that error cannot occur. *)
Theorem unicode_error_needs_undecodable_part reader out arch :
  fst (rename_arch element_size io_error reader out arch) = Py.Exc Py.UnicodeDecodeError ->
  exists key f part,
    In (key, f) (fields reader) /\
    Py.str_in key skip_keys = false /\
    In part (parts f) /\
    Py.utf8_points (map Py.byte_val (tobytes part)) = None.
Proof.
  rewrite rename_arch_unfold.
  destruct (copy_metadata reader (start out arch)) as [[[]|e1] s1] eqn:H1.
  - destruct (copy_tensors element_size reader s1) as [[[]|e2] s2] eqn:H2.
    + destruct (copy_metadata_trace _ _ _ _ H1)
        as (_ & _ & _ & _ & _ & _ & _ & _ & Hst1 & _).
      destruct (copy_tensors_trace _ _ _ _ H2)
        as (_ & _ & _ & _ & _ & _ & _ & Hst2 & _).
      destruct (write_file_cases s2) as [Hw|(n & s3 & _ & Hw & _)];
        [rewrite Hst2, Hst1; reflexivity| |]; rewrite Hw; discriminate.
    + cbn [fst]. intros H. injection H as ->.
      apply copy_tensors_raises in H2. destruct H2 as [[H|[H|H]] _]; discriminate H.
  - cbn [fst]. intros H. injection H as ->.
    apply copy_metadata_raises in H1.
    destruct H1 as [H|(key & f & Hin & Hk & Hv)]; [discriminate H|].
    destruct (field_value_unicode_error f Hv) as (part & Hp & Hu).
    exists key, f, part. repeat split; assumption.
Qed.

Lemma utf8_points_ascii (bs : list byte) :
  forallb (fun b => Py.byte_val b <? 128) bs = true ->
  Py.utf8_points (map Py.byte_val bs) = Some (map Py.byte_val bs).
Proof.
  induction bs as [|b bs IH]; intros H; [reflexivity|].
  cbn [forallb] in H. apply andb_prop in H. destruct H as [Hb Hbs].
  cbn [map Py.utf8_points]. change 0x80 with 128. rewrite Hb, (IH Hbs).
  reflexivity.
Qed.

(** X7. For a STRING field that is not skipped and whose last part holds
    only bytes below 128, taking the value never raises: the
    [add_key_value] call is made, and it passes the characters with those
    codes, with type STRING and no element type. *)
Theorem ascii_string_copied key f s rest part :
  Py.str_in key skip_keys = false ->
  types f = STRING :: rest ->
  Py.index (parts f) (-1) = Py.Val part ->
  forallb (fun b => Py.byte_val b <? 128) (tobytes part) = true ->
  calls (snd (copy_field (key, f) s))
  = calls s ++ [CallAddKeyValue key (PyStr (map Py.byte_val (tobytes part)))
                  STRING None].
Proof.
  intros Hskip Ht Hp Hascii.
  rewrite copy_field_run, Hskip. unfold field_value, string_value.
  rewrite Ht, index_0_cons. cbn [bind res_Monad ret].
  change (type_eqb STRING STRING) with true. cbv iota.
  rewrite Hp. cbn [bind res_Monad ret]. unfold Py.str_utf8.
  rewrite (utf8_points_ascii _ Hascii).
  cbn [value vtype sub_type]. unfold invoke.
  match goal with
  | |- context [add_key_value ?k ?v ?t ?o ?w] =>
      destruct (add_key_value k v t o w)
  end; reflexivity.
Qed.

(** X8. A run that raises does so in one of three ways.  Either the metadata
    loop raised, with IndexError or UnicodeDecodeError from Python or
    DuplicateKey from the writer, and then no [add_tensor] call was made.  Or
    the writer refused a tensor, with ShapeMismatch, DuplicateTensorName or
    InvalidShape; then every field that is not skipped had been copied, and
    the last [add_tensor] call is the one for the refused tensor.  Or a
    writing call failed with an input/output error; then every field that is
    not skipped and every tensor had been added. *)
Theorem exceptions_by_phase reader out arch e :
  fst (rename_arch element_size io_error reader out arch) = Py.Exc e ->
  ((from_python e = true \/ e = Py.DuplicateKey) /\
   added_tensors (calls (snd (rename_arch element_size io_error reader out arch))) = [])
  \/
  ((e = Py.ShapeMismatch \/ e = Py.DuplicateTensorName \/ e = Py.InvalidShape) /\
   added_keys (calls (snd (rename_arch element_size io_error reader out arch)))
   = map fst (filter kept (fields reader)) /\
   exists before t,
     In t (tensors reader) /\
     added_tensors (calls (snd (rename_arch element_size io_error reader out arch)))
     = map tensor_call before ++ [tensor_call t])
  \/
  (e = Py.IOError /\
   added_keys (calls (snd (rename_arch element_size io_error reader out arch)))
   = map fst (filter kept (fields reader)) /\
   added_tensors (calls (snd (rename_arch element_size io_error reader out arch)))
   = map tensor_call (tensors reader)).
Proof.
  rewrite rename_arch_unfold.
  destruct (copy_metadata reader (start out arch)) as [r1 s1] eqn:H1.
  destruct (copy_metadata_trace _ _ _ _ H1)
    as (done_f & todo_f & kvcalls & Hf & Hc1 & Hcop & Hr1 & _ & Hst1 & _).
  destruct (copied_keys _ _ Hcop) as (K1 & _ & K3).
  destruct r1 as [[]|e1].
  - destruct (Hr1 eq_refl) as [-> _]. rewrite app_nil_r in Hf. subst done_f.
    destruct (copy_tensors element_size reader s1) as [[[]|e2] s2] eqn:H2.
    + destruct (copy_tensors_trace _ _ _ _ H2)
        as (done_t & todo_t & Ht & Hc2 & Hr2 & _ & _ & Hst2 & _).
      rewrite (Hr2 eq_refl), app_nil_r in Ht. subst done_t.
      destruct (tensor_calls_only (tensors reader)) as (T1 & _ & T3).
      destruct (write_file_cases s2) as [Hw|(n & s3 & _ & Hw & Hc3 & _)];
        [rewrite Hst2, Hst1; reflexivity| |]; rewrite Hw; [discriminate|].
      cbn [fst snd]. intros H. injection H as <-.
      destruct (write_calls_add_nothing n) as (W1 & _ & W3 & _).
      right. right. split; [reflexivity|].
      rewrite Hc3, Hc2, Hc1. cbn [start calls].
      rewrite !added_keys_app, !added_tensors_app, K1, K3, T1, T3, W1, W3.
      cbn. rewrite !app_nil_r. split; reflexivity.
    + cbn [fst snd]. intros H. injection H as ->.
      apply copy_tensors_raises in H2.
      destruct H2 as [Hk (before & t & Hin & Hc2)].
      right. left. split; [exact Hk|].
      rewrite Hc2, Hc1. cbn [start calls].
      destruct (tensor_calls_only before) as (T1 & _ & T3).
      split.
      * rewrite !added_keys_app, K1, T1. cbn. now rewrite app_nil_r.
      * exists before, t. split; [exact Hin|].
        rewrite !added_tensors_app, K3, T3. reflexivity.
  - cbn [fst snd]. intros H. injection H as ->.
    left. split.
    + apply copy_metadata_raises in H1.
      destruct H1 as [H|(key & f & _ & _ & Hv)]; [now right|left].
      now apply (python_only_field_value f).
    + rewrite Hc1. cbn [start calls]. rewrite added_tensors_app, K3. reflexivity.
Qed.

Lemma filter_split_length {A} (p : A -> bool) l :
  (List.length (filter p l) + List.length (filter (fun x => negb (p x)) l)
   = List.length l)%nat.
Proof.
  induction l as [|x l IH]; [reflexivity|].
  cbn [filter]. destruct (p x); cbn [negb List.length]; lia.
Qed.

(** With distinct keys, no more than four fields are skipped. *)
Lemma skipped_at_most_four items :
  NoDup (map fst items) ->
  (List.length (filter (fun item => negb (kept item)) items) <= 4)%nat.
Proof.
  intros Hnd. rewrite <- (length_map fst).
  change 4%nat with (List.length skip_keys).
  apply NoDup_incl_length; [now apply NoDup_keys_filter|].
  intros key Hin. apply in_map_iff in Hin. destruct Hin as [item [<- Hi]].
  apply filter_In in Hi. destruct Hi as [_ Hk]. unfold kept in Hk.
  apply str_in_In. now destruct (Py.str_in (fst item) skip_keys).
Qed.

(** X9. When the keys of the reader are pairwise distinct and the metadata
    loop ends normally, at most four fields of the reader have no
    [add_key_value] call, and no call is made that is not for a field. *)
Theorem at_most_four_fields_dropped reader out arch :
  NoDup (map fst (fields reader)) ->
  fst (copy_metadata reader (start out arch)) = Py.Val tt ->
  (List.length (fields reader)
   <= List.length (added_keys (calls (snd (rename_arch element_size io_error reader out arch)))) + 4
   /\
   List.length (added_keys (calls (snd (rename_arch element_size io_error reader out arch))))
   <= List.length (fields reader))%nat.
Proof.
  intros Hnd Hdone.
  destruct (rename_arch_calls reader out arch)
    as (done_f & todo_f & kvcalls & done_t & Hf & _ & Hm & -> & _).
  rewrite (Hm Hdone), app_nil_r in Hf. subst done_f.
  rewrite length_map.
  pose proof (filter_split_length kept (fields reader)).
  pose proof (skipped_at_most_four (fields reader) Hnd).
  lia.
Qed.




(** C4, as amended.  Take a reader on which the metadata loop ends normally.
    Then the [add_tensor] calls are, in order, one for each tensor of an
    initial segment of the reader's tensors, with the tensor's name, array,
    shape and dtype tag as they are.  The segment falls short of all the
    tensors only when the writer refuses a tensor and the run ends with that
    refusal; otherwise as many tensors are added as the reader holds. *)
Theorem tensors_all_added reader out arch :
  fst (copy_metadata reader (start out arch)) = Py.Val tt ->
  exists done todo,
    tensors reader = done ++ todo /\
    added_tensors (calls (snd (rename_arch element_size io_error reader out arch)))
    = map (fun t => CallAddTensor (tensor_name t) (tensor_data t)
                                  (tensor_shape t) (tensor_type t)) done /\
    (todo <> [] ->
     exists e,
       fst (rename_arch element_size io_error reader out arch) = Py.Exc e /\
       (e = Py.ShapeMismatch \/ e = Py.DuplicateTensorName \/ e = Py.InvalidShape)) /\
    (todo = [] ->
     List.length
       (added_tensors (calls (snd (rename_arch element_size io_error reader out arch))))
     = List.length (tensors reader)).
Proof.
  intros Hmeta. rewrite rename_arch_unfold.
  destruct (copy_metadata reader (start out arch)) as [r1 s1] eqn:H1.
  cbn [fst] in Hmeta. subst r1.
  destruct (copy_metadata_trace _ _ _ _ H1)
    as (done_f & todo_f & kvcalls & _ & Hc1 & Hcop & _ & _ & Hst1 & _).
  destruct (copied_keys _ _ Hcop) as (_ & _ & K3).
  destruct (copy_tensors element_size reader s1) as [r2 s2] eqn:H2.
  destruct (copy_tensors_trace _ _ _ _ H2)
    as (done & todo & Ht & Hc2 & Hr2 & _ & _ & Hst2 & _).
  destruct (tensor_calls_only done) as (_ & _ & T3).
  exists done, todo. split; [exact Ht|].
  assert (Hadded : added_tensors (calls s2) = map tensor_call done).
  { rewrite Hc2, Hc1. cbn [start calls].
    rewrite !added_tensors_app, K3, T3. reflexivity. }
  destruct r2 as [[]|e2].
  - rewrite (Hr2 eq_refl), app_nil_r in Ht.
    assert (Hfinal : added_tensors (calls (snd (write_file io_error s2)))
                     = map tensor_call done).
    { destruct (write_file_cases s2) as [Hw|(n & s3 & _ & Hw & Hc3 & _)];
        [rewrite Hst2, Hst1; reflexivity| |]; rewrite Hw; cbn [snd calls].
      - rewrite added_tensors_app, Hadded.
        change (added_tensors write_sequence) with (@nil Call).
        apply app_nil_r.
      - destruct (write_calls_add_nothing n) as (_ & _ & W3 & _).
        rewrite Hc3, added_tensors_app, Hadded, W3. apply app_nil_r. }
    rewrite Hfinal. split; [reflexivity|]. split.
    + intros Hne. destruct Hne. now apply Hr2.
    + intros _. rewrite length_map, Ht. reflexivity.
  - cbn [fst snd]. rewrite Hadded. split; [reflexivity|]. split.
    + intros _. exists e2. split; [reflexivity|].
      now apply copy_tensors_raises in H2.
    + intros ->. rewrite app_nil_r in Ht. rewrite length_map, Ht. reflexivity.
Qed.


(** X11. A field that is not skipped and has no type, or has the type ARRAY
    and no element type after it, makes the loop body raise IndexError,
    whatever its parts and data are; no call is made and the writer is as
    before. *)
Theorem missing_type_raises_IndexError key f s :
  Py.str_in key skip_keys = false ->
  types f = [] \/ types f = [ARRAY] ->
  copy_field (key, f) s = (Py.Exc Py.IndexError, s).
Proof.
  intros Hskip Ht. rewrite copy_field_run, Hskip. unfold field_value.
  destruct Ht as [Ht|Ht]; rewrite Ht; [reflexivity|].
  rewrite index_0_cons. reflexivity.
Qed.

End RunFacts.

(** ** The theorems at sample containers *)

Lemma decode_encode_witness :
  Codec.supported
    (Codec.VArray INT16 [Codec.VNum INT16 (-2); Codec.VNum INT16 300]) = true /\
  Codec.decode ARRAY
    (Codec.encode
       (Codec.VArray INT16 [Codec.VNum INT16 (-2); Codec.VNum INT16 300])
     ++ [x2a])
  = inr (Codec.VArray INT16 [Codec.VNum INT16 (-2); Codec.VNum INT16 300], [x2a]).
Proof.
  split; [reflexivity|].
  apply (CodecFacts.decode_encode
           (Codec.VArray INT16 [Codec.VNum INT16 (-2); Codec.VNum INT16 300])
           [x2a]).
  reflexivity.
Defined.

Lemma model_keys_distinct : NoDup (map fst (fields Samples.model)).
Proof.
  vm_compute. repeat constructor; simpl; intuition discriminate.
Qed.

Lemma no_duplicate_key_witness :
  NoDup (map fst (fields Samples.model)) /\
  fst (rename_arch Samples.sizes Samples.no_io_error Samples.model Samples.out Samples.beta)
    <> Py.Exc Py.DuplicateKey.
Proof.
  split; [exact model_keys_distinct|].
  apply (no_duplicate_key Samples.sizes Samples.no_io_error Samples.model Samples.out Samples.beta).
  exact model_keys_distinct.
Defined.


Lemma tensors_all_added_witness :
  fst (copy_metadata Samples.model (start Samples.out Samples.beta)) = Py.Val tt /\
  exists done,
    added_tensors (calls (snd (rename_arch Samples.sizes Samples.no_io_error Samples.model Samples.out Samples.beta)))
    = map (fun t => CallAddTensor (tensor_name t) (tensor_data t)
                                  (tensor_shape t) (tensor_type t)) done.
Proof.
  split; [reflexivity|].
  destruct (tensors_all_added Samples.sizes Samples.no_io_error Samples.model
              Samples.out Samples.beta eq_refl) as (done & todo & _ & H & _).
  exists done. exact H.
Defined.

Lemma exceptions_by_phase_witness :
  fst (rename_arch Samples.sizes Samples.disk_full Samples.model Samples.out Samples.beta) = Py.Exc Py.IOError /\
  (((from_python Py.IOError = true \/ Py.IOError = Py.DuplicateKey) /\
    added_tensors (calls (snd (rename_arch Samples.sizes Samples.disk_full Samples.model Samples.out Samples.beta))) = [])
   \/
   ((Py.IOError = Py.ShapeMismatch \/ Py.IOError = Py.DuplicateTensorName \/
     Py.IOError = Py.InvalidShape) /\
    added_keys (calls (snd (rename_arch Samples.sizes Samples.disk_full Samples.model Samples.out Samples.beta))) = map fst (filter kept (fields Samples.model)) /\
    exists before t,
      In t (tensors Samples.model) /\
      added_tensors (calls (snd (rename_arch Samples.sizes Samples.disk_full Samples.model Samples.out Samples.beta))) = map tensor_call before ++ [tensor_call t])
   \/
   (Py.IOError = Py.IOError /\
    added_keys (calls (snd (rename_arch Samples.sizes Samples.disk_full Samples.model Samples.out Samples.beta))) = map fst (filter kept (fields Samples.model)) /\
    added_tensors (calls (snd (rename_arch Samples.sizes Samples.disk_full Samples.model Samples.out Samples.beta))) = map tensor_call (tensors Samples.model))).
Proof.
  split; [reflexivity|].
  apply (exceptions_by_phase Samples.sizes Samples.disk_full Samples.model
           Samples.out Samples.beta Py.IOError eq_refl).
Defined.

(** The run on the sample container: the three header fields and the old
    architecture are skipped, the four other entries and the tensor are
    handed over, and the file is written. *)
Example rename_arch_model_calls :
  calls (snd (rename_arch Samples.sizes Samples.no_io_error Samples.model Samples.out Samples.beta))
  = [CallNew Samples.out Samples.beta;
     CallAddKeyValue (Py.lit "answer") (PyScalar (SInt 42)) INT32 None;
     CallAddKeyValue (Py.lit "tags") (PyStrList [Py.lit "a"; [233]]) ARRAY
       (Some STRING);
     CallAddKeyValue (Py.lit "dims") (PyList [SInt 7; SInt 9]) ARRAY
       (Some UINT32);
     CallAddTensor (Py.lit "w") {| tobytes := Samples.weights; tolist := [] |}
       [3; 2] 0;
     CallWriteHeader; CallWriteKV; CallWriteTensors; CallClose].
Proof. reflexivity. Qed.


(** A string element that is not UTF-8: line 30 raises before the tensor
    loop, so the tensor of the reader is not added. *)
Lemma undecodable_element_no_tensor :
  List.length (tensors Samples.bad_element) = 1%nat /\
  fst (rename_arch Samples.sizes Samples.no_io_error Samples.bad_element Samples.out Samples.beta)
    = Py.Exc Py.UnicodeDecodeError /\
  added_tensors
    (calls (snd (rename_arch Samples.sizes Samples.no_io_error Samples.bad_element Samples.out
                   Samples.beta))) = [].
Proof. repeat split; reflexivity. Qed.

(** An array without elements: [types] has no second entry, line 27 raises
    IndexError, and the run stops before any call. *)
Example empty_array_raises :
  rename_arch Samples.sizes Samples.no_io_error Samples.empty_array Samples.out Samples.beta
  = (Py.Exc Py.IndexError, start Samples.out Samples.beta).
Proof. reflexivity. Qed.

Lemma copy_field_well_formed_witness :
  Py.str_in (fst MoreSamples.note_field) skip_keys = false /\
  well_formed (snd MoreSamples.note_field) = false /\
  exists e,
    from_python e = true /\
    copy_field MoreSamples.note_field (start Samples.out Samples.beta)
    = (Py.Exc e, start Samples.out Samples.beta).
Proof.
  split; [reflexivity|]. split; [reflexivity|].
  apply (proj2 (copy_field_well_formed (fst MoreSamples.note_field)
                  (snd MoreSamples.note_field)
                  (start Samples.out Samples.beta) eq_refl)).
  reflexivity.
Defined.

Lemma header_and_arch_keys_distinct :
  NoDup (map fst (Samples.header_fields ++ [MoreSamples.arch_field])).
Proof.
  vm_compute. repeat constructor; simpl; intuition discriminate.
Qed.

Lemma first_ill_formed_field_ends_run_witness :
  fields Samples.empty_array
  = (Samples.header_fields ++ [MoreSamples.arch_field])
    ++ MoreSamples.empty_tags_field :: [] /\
  NoDup (map fst (Samples.header_fields ++ [MoreSamples.arch_field])) /\
  forallb (fun item => negb (kept item) || well_formed (snd item))
          (Samples.header_fields ++ [MoreSamples.arch_field]) = true /\
  Py.str_in (fst MoreSamples.empty_tags_field) skip_keys = false /\
  well_formed (snd MoreSamples.empty_tags_field) = false /\
  exists e kvcalls,
    from_python e = true /\
    fst (rename_arch Samples.sizes Samples.no_io_error Samples.empty_array Samples.out Samples.beta)
    = Py.Exc e /\
    calls (snd (rename_arch Samples.sizes Samples.no_io_error Samples.empty_array Samples.out
                  Samples.beta))
    = CallNew Samples.out Samples.beta :: kvcalls /\
    Forall2 copied
      (filter kept (Samples.header_fields ++ [MoreSamples.arch_field])) kvcalls /\
    fout (writer (snd (rename_arch Samples.sizes Samples.no_io_error Samples.empty_array Samples.out
                         Samples.beta))) = [].
Proof.
  split; [reflexivity|]. split; [exact header_and_arch_keys_distinct|].
  split; [reflexivity|]. split; [reflexivity|]. split; [reflexivity|].
  apply (first_ill_formed_field_ends_run Samples.sizes Samples.no_io_error Samples.empty_array
           Samples.out Samples.beta
           (Samples.header_fields ++ [MoreSamples.arch_field])
           (fst MoreSamples.empty_tags_field) (snd MoreSamples.empty_tags_field)
           [] eq_refl header_and_arch_keys_distinct eq_refl eq_refl eq_refl).
Defined.

Lemma unicode_error_needs_undecodable_part_witness :
  fst (rename_arch Samples.sizes Samples.no_io_error Samples.bad_string Samples.out Samples.beta)
  = Py.Exc Py.UnicodeDecodeError /\
  exists key f part,
    In (key, f) (fields Samples.bad_string) /\
    Py.str_in key skip_keys = false /\
    In part (parts f) /\
    Py.utf8_points (map Py.byte_val (tobytes part)) = None.
Proof.
  split; [reflexivity|].
  apply (unicode_error_needs_undecodable_part Samples.sizes Samples.no_io_error Samples.bad_string
           Samples.out Samples.beta).
  reflexivity.
Defined.

Lemma ascii_string_copied_witness :
  Py.str_in (fst MoreSamples.name_field) skip_keys = false /\
  types (snd MoreSamples.name_field) = STRING :: [] /\
  Py.index (parts (snd MoreSamples.name_field)) (-1)
  = Py.Val (Samples.text "tiny") /\
  forallb (fun b => Py.byte_val b <? 128) (tobytes (Samples.text "tiny")) = true /\
  calls (snd (copy_field MoreSamples.name_field (start Samples.out Samples.beta)))
  = calls (start Samples.out Samples.beta) ++
    [CallAddKeyValue (Py.lit "general.name")
       (PyStr (map Py.byte_val (tobytes (Samples.text "tiny")))) STRING None].
Proof.
  split; [reflexivity|]. split; [reflexivity|]. split; [reflexivity|].
  split; [reflexivity|].
  apply (ascii_string_copied (fst MoreSamples.name_field)
           (snd MoreSamples.name_field) (start Samples.out Samples.beta)
           [] (Samples.text "tiny") eq_refl eq_refl eq_refl eq_refl).
Defined.

Lemma at_most_four_fields_dropped_witness :
  NoDup (map fst (fields Samples.model)) /\
  fst (copy_metadata Samples.model (start Samples.out Samples.beta)) = Py.Val tt /\
  (List.length (fields Samples.model)
   <= List.length
        (added_keys
           (calls (snd (rename_arch Samples.sizes Samples.no_io_error Samples.model Samples.out
                          Samples.beta)))) + 4)%nat.
Proof.
  split; [exact model_keys_distinct|]. split; [reflexivity|].
  apply (at_most_four_fields_dropped Samples.sizes Samples.no_io_error Samples.model Samples.out
           Samples.beta model_keys_distinct eq_refl).
Defined.

Lemma missing_type_raises_IndexError_witness :
  Py.str_in (fst MoreSamples.empty_tags_field) skip_keys = false /\
  (types (snd MoreSamples.empty_tags_field) = [] \/
   types (snd MoreSamples.empty_tags_field) = [ARRAY]) /\
  copy_field MoreSamples.empty_tags_field (start Samples.out Samples.beta)
  = (Py.Exc Py.IndexError, start Samples.out Samples.beta).
Proof.
  split; [reflexivity|]. split; [right; reflexivity|].
  apply (missing_type_raises_IndexError (fst MoreSamples.empty_tags_field)
           (snd MoreSamples.empty_tags_field) (start Samples.out Samples.beta)
           eq_refl (or_intror eq_refl)).
Defined.
